(** * The continuous video-summary agent (custom_agent/continuous_agent.py)

    A shallow embedding of the polling agent: the processed-file
    bookkeeping of [ContinuousVideoAgent], the JSON shapes accepted by
    [load_json_file], the two calls of [OllamaClient], and the way the
    overall summary is written to disk.

    Conventions.
    - A Python [str] and a Python [bytes] are both a [string]: a list of
      characters, one [ascii] per character, so the texts dealt with are
      those of characters with code points below 256.
    - A Python [int] is a [Z].
    - [self.processed_files] (a Python set) is a [gset string]; turning it
      into a list goes through the iteration order supplied by the world.
    - A Python [dict] whose order is visible (it is serialised) is an
      association list with Python's update discipline.
    - An exception that a function lets escape is the result [None] of an
      [option]; an exception it catches is the value it returns then.
    - [console.print] renders its text as rich markup and raises
      MarkupError on a closing tag that matches no opening one.  Whether
      a text prints is asked of the world for the warning of
      [analyze_content_complexity], which quotes the reply of the server;
      the other lines (paths, counts, the texts of caught exceptions) are
      taken to print. *)

From Stdlib Require Import ZArith Ascii String List Lia.

From stdpp Require Import gmap strings list fin_maps pretty.

Open Scope string_scope.

Set Warnings "-register-all,-clear-no-such-hyp".

(** ** hashlib.md5

    [_get_file_hash] calls [hashlib.md5(f.read()).hexdigest()].  The digest
    is RFC 1321 on 32-bit words, written on [Z] with the wrap-around made
    explicit. *)

Module MD5.

Local Open Scope Z_scope.

Definition mask32 : Z := 0xffffffff.
Definition wrap32 (x : Z) : Z := Z.land x mask32.
Definition not32 (x : Z) : Z := Z.lxor x mask32.
Definition rotl32 (x : Z) (c : Z) : Z :=
  wrap32 (Z.lor (Z.shiftl x c) (Z.shiftr x (32 - c))).

Definition K : list Z :=
  [ 0xd76aa478; 0xe8c7b756; 0x242070db; 0xc1bdceee;
    0xf57c0faf; 0x4787c62a; 0xa8304613; 0xfd469501;
    0x698098d8; 0x8b44f7af; 0xffff5bb1; 0x895cd7be;
    0x6b901122; 0xfd987193; 0xa679438e; 0x49b40821;
    0xf61e2562; 0xc040b340; 0x265e5a51; 0xe9b6c7aa;
    0xd62f105d; 0x02441453; 0xd8a1e681; 0xe7d3fbc8;
    0x21e1cde6; 0xc33707d6; 0xf4d50d87; 0x455a14ed;
    0xa9e3e905; 0xfcefa3f8; 0x676f02d9; 0x8d2a4c8a;
    0xfffa3942; 0x8771f681; 0x6d9d6122; 0xfde5380c;
    0xa4beea44; 0x4bdecfa9; 0xf6bb4b60; 0xbebfbc70;
    0x289b7ec6; 0xeaa127fa; 0xd4ef3085; 0x04881d05;
    0xd9d4d039; 0xe6db99e5; 0x1fa27cf8; 0xc4ac5665;
    0xf4292244; 0x432aff97; 0xab9423a7; 0xfc93a039;
    0x655b59c3; 0x8f0ccc92; 0xffeff47d; 0x85845dd1;
    0x6fa87e4f; 0xfe2ce6e0; 0xa3014314; 0x4e0811a1;
    0xf7537e82; 0xbd3af235; 0x2ad7d2bb; 0xeb86d391 ].

Definition S : list Z :=
  [ 7; 12; 17; 22; 7; 12; 17; 22; 7; 12; 17; 22; 7; 12; 17; 22;
    5; 9; 14; 20; 5; 9; 14; 20; 5; 9; 14; 20; 5; 9; 14; 20;
    4; 11; 16; 23; 4; 11; 16; 23; 4; 11; 16; 23; 4; 11; 16; 23;
    6; 10; 15; 21; 6; 10; 15; 21; 6; 10; 15; 21; 6; 10; 15; 21 ].

Definition byte_of (c : ascii) : Z := Z.of_N (N_of_ascii c).
Definition bytes_of (s : string) : list Z := map byte_of (list_ascii_of_string s).

(** Little-endian bytes of a word, low byte first. *)
Fixpoint le_bytes (n : nat) (x : Z) : list Z :=
  match n with
  | O => []
  | Datatypes.S n' => Z.land x 0xff :: le_bytes n' (Z.shiftr x 8)
  end.

Fixpoint le_word (bs : list Z) : Z :=
  match bs with
  | [] => 0
  | b :: r => Z.lor b (Z.shiftl (le_word r) 8)
  end.

(** The message, the byte 0x80, zero bytes up to 56 modulo 64, and the bit
    length on eight bytes. *)
Definition pad (msg : list Z) : list Z :=
  let len := Z.of_nat (length msg) in
  let zeros := Z.to_nat ((55 - len) mod 64) in
  msg ++ [0x80] ++ repeat 0 zeros ++ le_bytes 8 (Z.land (8 * len) 0xffffffffffffffff).

Fixpoint words (n : nat) (bs : list Z) : list Z :=
  match n with
  | O => []
  | Datatypes.S n' => le_word (firstn 4 bs) :: words n' (skipn 4 bs)
  end.

Fixpoint blocks (n : nat) (bs : list Z) : list (list Z) :=
  match n with
  | O => []
  | Datatypes.S n' => words 16 (firstn 64 bs) :: blocks n' (skipn 64 bs)
  end.

Definition state : Type := Z * Z * Z * Z.

Definition round (M : list Z) (st : state) (i : nat) : state :=
  let '(a, b, c, d) := st in
  let iz := Z.of_nat i in
  let '(f, g) :=
    if iz <? 16 then (Z.lor (Z.land b c) (Z.land (not32 b) d), iz)
    else if iz <? 32 then (Z.lor (Z.land d b) (Z.land (not32 d) c), (5 * iz + 1) mod 16)
    else if iz <? 48 then (Z.lxor (Z.lxor b c) d, (3 * iz + 5) mod 16)
    else (Z.lxor c (Z.lor b (not32 d)), (7 * iz) mod 16) in
  let f' := wrap32 (f + a + nth i K 0 + nth (Z.to_nat g) M 0) in
  (d, wrap32 (b + rotl32 f' (nth i S 0)), b, c).

Definition compress (st : state) (M : list Z) : state :=
  let '(a0, b0, c0, d0) := st in
  let '(a, b, c, d) := fold_left (round M) (seq 0 64) st in
  (wrap32 (a0 + a), wrap32 (b0 + b), wrap32 (c0 + c), wrap32 (d0 + d)).

Definition init : state := (0x67452301, 0xefcdab89, 0x98badcfe, 0x10325476).

Definition digest (msg : string) : list Z :=
  let bs := pad (bytes_of msg) in
  let '(a, b, c, d) := fold_left compress (blocks (length bs / 64) bs) init in
  le_bytes 4 a ++ le_bytes 4 b ++ le_bytes 4 c ++ le_bytes 4 d.

Definition hex_digit (x : Z) : ascii :=
  ascii_of_N (Z.to_N (if x <? 10 then 48 + x else 87 + x)).

Fixpoint hex (bs : list Z) : string :=
  match bs with
  | [] => EmptyString
  | b :: r => String (hex_digit (Z.shiftr b 4)) (String (hex_digit (Z.land b 0xf)) (hex r))
  end.

Definition hexdigest (msg : string) : string := hex (digest msg).

End MD5.

(** ** Python strings *)

Module PyStr.

Definition dquote : ascii := "034"%char.
Definition squote : ascii := "039"%char.
Definition backslash : ascii := "092"%char.

Definition code (c : ascii) : N := N_of_ascii c.

(** [needle in hay] on two strings. *)
Fixpoint contains (needle hay : string) : bool :=
  String.prefix needle hay
  || match hay with
     | EmptyString => false
     | String _ rest => contains needle rest
     end.

Definition has_char (c : ascii) (s : string) : bool :=
  existsb (Ascii.eqb c) (list_ascii_of_string s).

(** [str.upper()] for one character.  Letters a-z and the accented letters
    0xe0-0xfe (0xf7, the division sign, apart) move down by 0x20; the sharp
    s becomes SS.  The micro sign and y-diaeresis have their upper-case
    forms outside the characters an [ascii] holds and are left as they
    are; neither is a letter of a detail-level keyword. *)
Definition upper_char (c : ascii) : string :=
  let n := code c in
  if ((97 <=? n) && (n <=? 122))%N then String (ascii_of_N (n - 32)) ""
  else if (n =? 223)%N then "SS"
  else if ((224 <=? n) && (n <=? 254) && negb (n =? 247))%N
       then String (ascii_of_N (n - 32)) ""
  else String c "".

Fixpoint upper (s : string) : string :=
  match s with
  | EmptyString => EmptyString
  | String c rest => upper_char c ++ upper rest
  end.

Definition hex_digit (n : N) : ascii :=
  ascii_of_N (if (n <? 10)%N then 48 + n else 87 + n).

Definition hex2 (c : ascii) : string :=
  String (hex_digit (code c / 16)) (String (hex_digit (code c mod 16)) "").

(** [str.isprintable()] for one character below 256. *)
Definition printable (c : ascii) : bool :=
  let n := code c in
  ((32 <=? n) && (n <? 127) || (161 <=? n) && negb (n =? 173))%N.

(** [repr(s)] of a string: single quotes unless the string has a single
    quote and no double quote. *)
Definition repr_char (quote c : ascii) : string :=
  if Ascii.eqb c quote || Ascii.eqb c backslash then String backslash (String c "")
  else if Ascii.eqb c "009"%char then String backslash "t"
  else if Ascii.eqb c "010"%char then String backslash "n"
  else if Ascii.eqb c "013"%char then String backslash "r"
  else if printable c then String c ""
  else String backslash ("x" ++ hex2 c).

Definition repr (s : string) : string :=
  let quote := if has_char squote s && negb (has_char dquote s) then dquote else squote in
  String quote
    (String.concat "" (map (repr_char quote) (list_ascii_of_string s)) ++ String quote "").

(** [json.dumps(s, ensure_ascii=False)] of a string: only the quote, the
    backslash and the control characters below 0x20 are escaped. *)
Definition json_escape_char (c : ascii) : string :=
  if Ascii.eqb c dquote || Ascii.eqb c backslash then String backslash (String c "")
  else if Ascii.eqb c "008"%char then String backslash "b"
  else if Ascii.eqb c "012"%char then String backslash "f"
  else if Ascii.eqb c "010"%char then String backslash "n"
  else if Ascii.eqb c "013"%char then String backslash "r"
  else if Ascii.eqb c "009"%char then String backslash "t"
  else if (code c <? 32)%N then String backslash ("u00" ++ hex2 c)
  else String c "".

Definition json_string (s : string) : string :=
  String dquote
    (String.concat "" (map json_escape_char (list_ascii_of_string s)) ++ String dquote "").

End PyStr.

(** ** Values read by json.load *)

(** A float is carried by its Python [repr]; every other value by its
    structure.  A JSON object is the Python dict json.load builds, in key
    order. *)
Inductive json : Type :=
  | JNull
  | JBool (b : bool)
  | JInt (n : Z)
  | JFloat (text : string)
  | JStr (s : string)
  | JList (items : list json)
  | JDict (entries : list (string * json)).

Module Py.

(** [d.get(key)], [None] of the option when the key is absent. *)
Fixpoint lookup {A} (key : string) (d : list (string * A)) : option A :=
  match d with
  | [] => None
  | (k, v) :: rest => if String.eqb k key then Some v else lookup key rest
  end.

Definition keys {A} (d : list (string * A)) : list string := map fst d.
Definition values {A} (d : list (string * A)) : list A := map snd d.

(** [d[key] = v]: an existing key keeps its place, a new one goes last. *)
Fixpoint setitem {A} (key : string) (v : A) (d : list (string * A)) : list (string * A) :=
  match d with
  | [] => [(key, v)]
  | (k, w) :: rest =>
      if String.eqb k key then (k, v) :: rest else (k, w) :: setitem key v rest
  end.

(** [d.update(other)]. *)
Definition update {A} (d other : list (string * A)) : list (string * A) :=
  fold_left (fun acc kv => setitem (fst kv) (snd kv) acc) other d.

(** [repr(v)]. *)
Fixpoint repr (v : json) : string :=
  match v with
  | JNull => "None"
  | JBool true => "True"
  | JBool false => "False"
  | JInt n => pretty n
  | JFloat text => text
  | JStr s => PyStr.repr s
  | JList items => "[" ++ String.concat ", " (map repr items) ++ "]"
  | JDict entries =>
      "{" ++ String.concat ", "
               (map (fun kv => PyStr.repr (fst kv) ++ ": " ++ repr (snd kv)) entries)
          ++ "}"
  end.

(** [str(v)]. *)
Definition str (v : json) : string :=
  match v with
  | JStr s => s
  | _ => repr v
  end.

(** Truth value of [v] in a condition. *)
Definition truthy (v : json) : bool :=
  match v with
  | JNull => false
  | JBool b => b
  | JInt n => negb (n =? 0)%Z
  | JFloat text => negb (String.eqb text "0.0" || String.eqb text "-0.0")
  | JStr s => negb (String.eqb s "")
  | JList items => match items with [] => false | _ => true end
  | JDict entries => match entries with [] => false | _ => true end
  end.

Definition is_str (key : string) (v : json) : bool :=
  match v with
  | JStr s => String.eqb s key
  | _ => false
  end.

(** [key in c] for a string [key]; TypeError on a value that is no
    container. *)
Definition contains (key : string) (c : json) : option bool :=
  match c with
  | JDict entries => Some (existsb (String.eqb key) (keys entries))
  | JStr s => Some (PyStr.contains key s)
  | JList items => Some (existsb (is_str key) items)
  | _ => None
  end.

(** [c[key]] for a string [key]: only a dict has string subscripts. *)
Definition getitem (c : json) (key : string) : option json :=
  match c with
  | JDict entries => lookup key entries
  | _ => None
  end.

(** [c.get(key)] on a dict: the value or Python's None. *)
Definition get (entries : list (string * json)) (key : string) : json :=
  default JNull (lookup key entries).

(** The items [for x in c] visits; TypeError on a value that cannot be
    iterated. *)
Definition iter (c : json) : option (list json) :=
  match c with
  | JList items => Some items
  | JDict entries => Some (map JStr (keys entries))
  | JStr s => Some (map (fun ch => JStr (String ch "")) (list_ascii_of_string s))
  | _ => None
  end.

End Py.

(** ** The two pydantic models *)

Record VideoSummary : Type := {
  video_id : option string;
  title : option string;
  description : option string;
  ai_summary : option string;
  duration : option string;
  metadata : option (list (string * json))
}.

Record OverallSummary : Type := {
  total_videos : Z;
  total_files : Z;
  overall_ai_description : string;
  processed_files : list string;
  file_hashes : list (string * string);
  summary_metadata : list (string * string)
}.

(** Validation of one [Optional[str]] argument: absent, None or a string;
    any other value is a ValidationError. *)
Definition optional_str (arg : option json) : option (option string) :=
  match arg with
  | None | Some JNull => Some None
  | Some (JStr s) => Some (Some s)
  | Some _ => None
  end.

(** Validation of the [Optional[Dict[str, Any]]] argument. *)
Definition optional_dict (arg : option json) : option (option (list (string * json))) :=
  match arg with
  | None | Some JNull => Some None
  | Some (JDict entries) => Some (Some entries)
  | Some _ => None
  end.

(** The constructor [VideoSummary] on the keyword arguments [kw]: the six
    fields are validated, other keys are ignored. *)
Definition VideoSummary_of (kw : list (string * json)) : option VideoSummary :=
  vid ← optional_str (Py.lookup "video_id" kw);
  ttl ← optional_str (Py.lookup "title" kw);
  dsc ← optional_str (Py.lookup "description" kw);
  sm ← optional_str (Py.lookup "ai_summary" kw);
  dur ← optional_str (Py.lookup "duration" kw);
  md ← optional_dict (Py.lookup "metadata" kw);
  Some {| video_id := vid; title := ttl; description := dsc;
          ai_summary := sm; duration := dur; metadata := md |}.

(** [VideoSummary(ai_summary=s)]. *)
Definition VideoSummary_ai (s : option string) : VideoSummary :=
  {| video_id := None; title := None; description := None;
     ai_summary := s; duration := None; metadata := None |}.

(** ** load_json_file *)

(** The [english_summary] of one entry of "top_3_results". *)
Definition english_summary (video : json) : option json :=
  let from_analysis :=
    has ← Py.contains "analysis" video;
    if has : bool then
      analysis ← Py.getitem video "analysis";
      has' ← Py.contains "summary" analysis;
      if has' : bool then Py.getitem analysis "summary" else Some (JStr "")
    else Some (JStr "") in
  has ← Py.contains "multilingual_summaries" video;
  if has : bool then
    multilingual ← Py.getitem video "multilingual_summaries";
    has' ← Py.contains "English" multilingual;
    if has' : bool then Py.getitem multilingual "English" else from_analysis
  else from_analysis.

(** One turn of the loop over "top_3_results": [Some None] when the entry
    is passed over, [None] when the turn raises. *)
Definition top_3_result (video : json) : option (option VideoSummary) :=
  english ← english_summary video;
  if Py.truthy english && negb (Py.is_str "Analysis could not be parsed" english) then
    match video with
    | JDict entries =>
        vid ← optional_str (Some (Py.get entries "id"));
        ttl ← optional_str (Some (Py.get entries "title"));
        sm ← optional_str (Some english);
        Some (Some {| video_id := vid; title := ttl; description := None;
                      ai_summary := sm;
                      duration :=
                        Some (Py.str (default (JStr "") (Py.lookup "duration_minutes" entries))
                              ++ " minutes");
                      metadata :=
                        Some [("uploader", Py.get entries "uploader");
                              ("view_count", Py.get entries "view_count")] |})
    | _ => None
    end
  else Some None.

(** The body of the [try]: the list built from the decoded document, or
    [None] when an exception is raised on the way. *)
Definition summaries_of_document (data : json) : option (list VideoSummary) :=
  match data with
  | JList items =>
      mapM (fun item =>
              match item with
              | JDict kw => VideoSummary_of kw
              | _ => Some (VideoSummary_ai (Some (Py.str item)))
              end) items
  | JDict entries =>
      match Py.lookup "top_3_results" entries with
      | Some results =>
          videos ← Py.iter results;
          kept ← mapM top_3_result videos;
          Some (omap id kept)
      | None =>
      match Py.lookup "videos" entries with
      | Some videos =>
          vs ← Py.iter videos;
          mapM (fun video =>
                  match video with
                  | JDict kw => VideoSummary_of kw
                  | _ => None
                  end) vs
      | None =>
      match Py.lookup "summaries" entries with
      | Some summaries =>
          ss ← Py.iter summaries;
          mapM (fun summary => VideoSummary_ai <$> optional_str (Some summary)) ss
      | None => v ← VideoSummary_of entries; Some [v]
      end end end
  | _ => None
  end.

(** A file of the monitored directory: its bytes, and what [json.load]
    makes of them ([None] when decoding raises). *)
Record file : Type := {
  content : string;
  decoded : option json
}.

(** [load_json_file]: the list returned.  Each of the three handlers
    prints a message, taken to print, and returns the empty list. *)
Definition load_json_file (fs : gmap string file) (file_path : string) : list VideoSummary :=
  match fs !! file_path with
  | None => []
  | Some f =>
      match decoded f with
      | None => []
      | Some data => default [] (summaries_of_document data)
      end
  end.

(** ** extract_ai_summaries *)

Definition nonempty (s : option string) : bool :=
  match s with
  | Some (String _ _) => true
  | _ => false
  end.

Fixpoint extract_ai_summaries (video_summaries : list VideoSummary) : list string :=
  match video_summaries with
  | [] => []
  | video :: rest =>
      if nonempty (ai_summary video) then default "" (ai_summary video) :: extract_ai_summaries rest
      else if nonempty (description video) then default "" (description video) :: extract_ai_summaries rest
      else if nonempty (title video) then ("Title: " ++ default "" (title video)) :: extract_ai_summaries rest
      else extract_ai_summaries rest
  end.

(** ** OllamaClient *)

(** What [requests.post] followed by [raise_for_status] and
    [response.json()] gives: a [RequestException] (connection refused,
    timeout, HTTP error status, body that is no JSON), or the decoded
    body.  The prompt sent is not part of the model: the reply is whatever
    the world holds for the call. *)
Inductive http_outcome : Type :=
  | RequestException
  | Body (result : json).

Definition detail_levels : list string := ["BRIEF"; "STANDARD"; "DETAILED"; "EXTENSIVE"].

(** The text printed when the reply names no level: the reply is quoted
    as it came, inside a pair of tags (the warning sign stands here as the
    bytes of its UTF-8 form). *)
Definition unclear_warning (detail_response : string) : string :=
  "[yellow]⚠️  Ollama response unclear, using STANDARD as default: "
  ++ detail_response ++ "[/yellow]".

(** [analyze_content_complexity].  [prints text] tells whether
    [console.print(text)] goes through ([true]) or raises MarkupError
    ([false]).  The result is [None] when the body has no [get] or the
    "response" value has no [upper] (AttributeError), and when the warning
    for a reply that names no level does not print (MarkupError): the
    [except] clause catches neither. *)
Definition analyze_content_complexity (prints : string → bool) (reply : http_outcome)
    : option string :=
  match reply with
  | RequestException => Some "STANDARD"
  | Body (JDict result) =>
      match default (JStr "STANDARD") (Py.lookup "response" result) with
      | JStr detail_response =>
          match List.find (fun level => PyStr.contains level (PyStr.upper detail_response))
                          detail_levels with
          | Some level => Some level
          | None => if prints (unclear_warning detail_response) then Some "STANDARD" else None
          end
      | _ => None
      end
  | Body _ => None
  end.

Definition max_tokens_map : list (string * Z) :=
  [("BRIEF", 800); ("STANDARD", 1500); ("DETAILED", 2500); ("EXTENSIVE", 4000)]%Z.

Definition connection_issues : string :=
  "Error: Unable to generate summary due to Ollama connection issues".

(** [generate_summary]: the value returned, or [None] when an exception
    escapes.  [analysis] answers the first POST, [generation] the second. *)
Definition generate_summary (prints : string → bool) (analysis generation : http_outcome)
    : option json :=
  detail_level ← analyze_content_complexity prints analysis;
  let max_tokens := default 1500%Z (Py.lookup detail_level max_tokens_map) in
  match generation with
  | RequestException => Some (JStr connection_issues)
  | Body (JDict result) =>
      Some (default (JStr "Unable to generate summary") (Py.lookup "response" result))
  | Body _ => None
  end.

(** ** The agent *)

Record config : Type := {
  monitor_dir : string;
  output_file : string;
  model : string
}.

(** [Path(p).name]: what follows the last separator of a path in the form
    [str(Path(...))] gives it (no trailing separator). *)
Fixpoint name_from (current path : string) : string :=
  match path with
  | EmptyString => current
  | String c rest =>
      if Ascii.eqb c "/" then name_from "" rest
      else name_from (current ++ String c "") rest
  end.

Definition path_name (path : string) : string := name_from "" path.

(** What happens when [_save_summary] opens and writes the output file. *)
Inductive write_outcome : Type :=
  | Written
  | OpenFailed
  | WriteFailed (written : nat).

(** Everything outside the agent that one call of [process_new_files]
    observes.  [prints] is the console: whether [console.print] goes
    through for a given markup text, or raises MarkupError. *)
Record world : Type := {
  ollama_up : bool;
  listing : list string;
  files : gmap string file;
  set_order : gset string → list string;
  analysis_reply : http_outcome;
  generation_reply : http_outcome;
  prints : string → bool;
  now : string;
  write : write_outcome
}.

(** A directory lists each path once, and [list(s)] holds the elements of
    the set [s], each once, in an order of the interpreter's choosing. *)
Definition world_ok (w : world) : Prop :=
  NoDup (listing w) ∧ ∀ s, set_order w s ≡ₚ elements s.

(** [objects] holds every [OverallSummary] built so far, oldest first;
    [self.overall_summary] refers to the newest, or is None when none has
    been built.  [disk] is the text of the output file. *)
Record agent : Type := {
  objects : list OverallSummary;
  self_processed_files : gset string;
  disk : option string
}.

Definition overall_summary (a : agent) : option OverallSummary := last (objects a).

(** The agent after [__init__] when no output file exists. *)
Definition fresh : agent :=
  {| objects := []; self_processed_files := ∅; disk := None |}.

(** ** Writing the summary *)

Definition newline : string := String "010"%char "".

Fixpoint spaces (n : nat) : string :=
  match n with
  | O => ""
  | S n' => String " "%char (spaces n')
  end.

(** A JSON array or object under [indent=2], [level] containers deep. *)
Definition block (opening closing : string) (level : nat) (items : list string) : string :=
  match items with
  | [] => opening ++ closing
  | _ =>
      opening ++ newline ++ spaces (2 * (level + 1))
      ++ String.concat ("," ++ newline ++ spaces (2 * (level + 1))) items
      ++ newline ++ spaces (2 * level) ++ closing
  end.

Definition member (key value : string) : string :=
  PyStr.json_string key ++ ": " ++ value.

Definition string_members (d : list (string * string)) : list string :=
  map (fun kv => member (fst kv) (PyStr.json_string (snd kv))) d.

(** [json.dump(s.model_dump(), file, indent=2, ensure_ascii=False)]. *)
Definition json_dump (s : OverallSummary) : string :=
  block "{" "}" 0
    [ member "total_videos" (pretty (total_videos s));
      member "total_files" (pretty (total_files s));
      member "overall_ai_description" (PyStr.json_string (overall_ai_description s));
      member "processed_files" (block "[" "]" 1 (map PyStr.json_string (processed_files s)));
      member "file_hashes" (block "{" "}" 1 (string_members (file_hashes s)));
      member "summary_metadata" (block "{" "}" 1 (string_members (summary_metadata s))) ].

(** The text of the output file once [n] characters of [doc] have reached
    it: opening the file for writing has emptied it before the first. *)
Definition partial_write (n : nat) (doc : string) : string := String.substring 0 n doc.

Definition set_disk (a : agent) (text : option string) : agent :=
  {| objects := objects a; self_processed_files := self_processed_files a; disk := text |}.

(** [_save_summary]: an exception is printed and dropped; the file keeps
    what had been written by then. *)
Definition _save_summary (w : world) (a : agent) : agent :=
  match overall_summary a with
  | None => a
  | Some s =>
      match write w with
      | Written => set_disk a (Some (json_dump s))
      | OpenFailed => a
      | WriteFailed n => set_disk a (Some (partial_write n (json_dump s)))
      end
  end.

(** The output file when the process stops [n] characters into the write
    of [_save_summary]. *)
Definition disk_if_killed (n : nat) (a : agent) : option string :=
  match overall_summary a with
  | None => disk a
  | Some s => Some (partial_write n (json_dump s))
  end.

(** ** Which files are new *)

(** [_get_file_hash]: the empty string when the file cannot be read. *)
Definition _get_file_hash (fs : gmap string file) (file_path : string) : string :=
  match fs !! file_path with
  | Some f => MD5.hexdigest (content f)
  | None => ""
  end.

Definition _is_file_processed (fs : gmap string file) (a : agent) (file_path : string) : bool :=
  if bool_decide (file_path ∈ self_processed_files a) then true
  else
    match overall_summary a with
    | Some s =>
        match file_hashes s with
        | [] => false
        | _ =>
            let current_hash := _get_file_hash fs file_path in
            bool_decide (current_hash ∈ Py.values (file_hashes s))
        end
    | None => false
    end.

(** The condition of the filter loop of [process_new_files]. *)
Definition is_new (cfg : config) (w : world) (a : agent) (file_path : string) : bool :=
  negb (String.eqb (path_name file_path) (path_name (output_file cfg)))
  && negb (bool_decide (file_path ∈ self_processed_files a))
  && negb (_is_file_processed (files w) a file_path).

Definition new_files (cfg : config) (w : world) (a : agent) : list string :=
  filter (λ file_path, is_new cfg w a file_path = true) (listing w).

(** ** One cycle *)

(** The three accumulators of the loop over the new files. *)
Record batch : Type := {
  all_video_summaries : list string;
  processed_file_paths : list string;
  new_file_hashes : list (string * string)
}.

Definition previously_processed (s : OverallSummary) : list string :=
  map (λ i : nat, "Previously processed video " ++ pretty (i + 1)%nat)
      (seq 0 (Z.to_nat (total_videos s))).

(** One turn of the loop. *)
Definition process_file (fs : gmap string file) (b : batch) (file_path : string) : batch :=
  match load_json_file fs file_path with
  | [] => b
  | video_summaries =>
      {| all_video_summaries := all_video_summaries b ++ extract_ai_summaries video_summaries;
         processed_file_paths := processed_file_paths b ++ [file_path];
         new_file_hashes := Py.setitem file_path (_get_file_hash fs file_path) (new_file_hashes b) |}
  end.

Definition collect (w : world) (a : agent) (files_to_read : list string) : batch :=
  fold_left (process_file (files w)) files_to_read
    {| all_video_summaries :=
         match overall_summary a with
         | Some s => previously_processed s
         | None => []
         end;
       processed_file_paths := [];
       new_file_hashes := [] |}.

(** The calls a cycle makes that the claims speak of. *)
Inductive call : Type :=
  | GenerateSummary (video_summaries : list string) (model_name : string)
  | SaveSummary.

(** [returned] is the boolean [process_new_files] returns, or [None] when
    an exception leaves it. *)
Record outcome : Type := {
  returned : option bool;
  after : agent;
  calls : list call
}.

(** The [OverallSummary] the cycle builds from the batch and the
    description. *)
Definition merged (cfg : config) (w : world) (a : agent) (b : batch)
    (overall_description : string) : OverallSummary :=
  {| total_videos := Z.of_nat (length (all_video_summaries b));
     total_files :=
       (Z.of_nat (length (processed_file_paths b))
        + match overall_summary a with
          | Some s => total_files s
          | None => 0
          end)%Z;
     overall_ai_description := overall_description;
     processed_files := set_order w (self_processed_files a) ++ processed_file_paths b;
     file_hashes :=
       Py.update
         match overall_summary a with
         | Some s => Py.update [] (file_hashes s)
         | None => []
         end
         (new_file_hashes b);
     summary_metadata :=
       [("model_used", model cfg); ("last_updated", now w);
        ("monitor_directory", monitor_dir cfg)] |}.

Definition process_new_files (cfg : config) (w : world) (a : agent) : outcome :=
  if negb (ollama_up w) then {| returned := Some false; after := a; calls := [] |}
  else
    match new_files cfg w a with
    | [] => {| returned := Some true; after := a; calls := [] |}
    | to_read =>
        let b := collect w a to_read in
        match all_video_summaries b with
        | [] => {| returned := Some true; after := a; calls := [] |}
        | texts =>
            let asked := GenerateSummary texts (model cfg) in
            match generate_summary (prints w) (analysis_reply w) (generation_reply w) with
            | Some (JStr overall_description) =>
                let built :=
                  {| objects := objects a ++ [merged cfg w a b overall_description];
                     self_processed_files :=
                       self_processed_files a ∪ list_to_set (processed_file_paths b);
                     disk := disk a |} in
                {| returned := Some true;
                   after := _save_summary w built;
                   calls := [asked; SaveSummary] |}
            | _ => {| returned := None; after := a; calls := [asked] |}
            end
        end
    end.

(** Successive cycles, one world per cycle. *)
Definition run (cfg : config) (ws : list world) (a : agent) : agent :=
  fold_left (λ a w, after (process_new_files cfg w a)) ws a.

(** ** The loop over the new files *)

Definition has_items {A} (l : list A) : bool :=
  match l with
  | [] => false
  | _ => true
  end.

(** The paths the loop marks as processed: those whose file gave at least
    one record. *)
Definition loaded (fs : gmap string file) (paths : list string) : list string :=
  filter (λ p, has_items (load_json_file fs p) = true) paths.

Definition newly_processed (cfg : config) (w : world) (a : agent) : list string :=
  loaded (files w) (new_files cfg w a).

(** ** The ways a cycle can go *)

(** The agent once the new [OverallSummary] is built and the set updated,
    before [_save_summary]. *)
Definition committed (cfg : config) (w : world) (a : agent) (text : string) : agent :=
  let b := collect w a (new_files cfg w a) in
  {| objects := objects a ++ [merged cfg w a b text];
     self_processed_files := self_processed_files a ∪ list_to_set (processed_file_paths b);
     disk := disk a |}.

Inductive cycle (cfg : config) (w : world) (a : agent) : outcome → Prop :=
  | cycle_unavailable :
      ollama_up w = false →
      cycle cfg w a {| returned := Some false; after := a; calls := [] |}
  | cycle_nothing_new :
      ollama_up w = true →
      new_files cfg w a = [] →
      cycle cfg w a {| returned := Some true; after := a; calls := [] |}
  | cycle_no_text :
      ollama_up w = true →
      new_files cfg w a ≠ [] →
      all_video_summaries (collect w a (new_files cfg w a)) = [] →
      cycle cfg w a {| returned := Some true; after := a; calls := [] |}
  | cycle_raised :
      ollama_up w = true →
      new_files cfg w a ≠ [] →
      all_video_summaries (collect w a (new_files cfg w a)) ≠ [] →
      (∀ text, generate_summary (prints w) (analysis_reply w) (generation_reply w) ≠ Some (JStr text)) →
      cycle cfg w a
        {| returned := None; after := a;
           calls := [GenerateSummary (all_video_summaries (collect w a (new_files cfg w a)))
                                     (model cfg)] |}
  | cycle_committed text :
      ollama_up w = true →
      new_files cfg w a ≠ [] →
      all_video_summaries (collect w a (new_files cfg w a)) ≠ [] →
      generate_summary (prints w) (analysis_reply w) (generation_reply w) = Some (JStr text) →
      cycle cfg w a
        {| returned := Some true;
           after := _save_summary w (committed cfg w a text);
           calls := [GenerateSummary (all_video_summaries (collect w a (new_files cfg w a)))
                                     (model cfg);
                     SaveSummary] |}.

(** ** The bookkeeping invariant *)

(** What the specification asks of an accumulated state. *)
Definition summary_ok (s : OverallSummary) : Prop :=
  Z.of_nat (length (processed_files s)) = total_files s
  ∧ ∀ k, k ∈ Py.keys (file_hashes s) → k ∈ processed_files s.

(** What ties the set of the agent to its current summary. *)
Definition agent_ok (a : agent) : Prop :=
  match overall_summary a with
  | None => self_processed_files a = ∅
  | Some s =>
      NoDup (processed_files s)
      ∧ (∀ p, p ∈ processed_files s ↔ p ∈ self_processed_files a)
      ∧ NoDup (Py.keys (file_hashes s))
      ∧ ("" ∉ Py.values (file_hashes s))
      ∧ summary_ok s
  end.

Definition old_hashes (a : agent) : list (string * string) :=
  match overall_summary a with
  | Some s => file_hashes s
  | None => []
  end.

Definition old_paths (a : agent) : list string :=
  match overall_summary a with
  | Some s => processed_files s
  | None => []
  end.

(** ** A directory to run the agent on *)

Definition quoted (s : string) : string :=
  (String PyStr.dquote s ++ String PyStr.dquote "")%string.

Definition demo_cfg : config :=
  {| monitor_dir := "video_summaries";
     output_file := "overall_summary.json";
     model := "deepseek-r1:8b" |}.

(** A file with two records, each with an ai_summary. *)
Definition two_records : file :=
  {| content :=
       ("[{" ++ quoted "ai_summary" ++ ": " ++ quoted "x" ++ "}, {"
        ++ quoted "ai_summary" ++ ": " ++ quoted "y" ++ "}]")%string;
     decoded := Some (JList [JDict [("ai_summary", JStr "x")];
                             JDict [("ai_summary", JStr "y")]]) |}.

(** A file with one record that has a title only. *)
Definition one_record : file :=
  {| content := ("[{" ++ quoted "title" ++ ": " ++ quoted "t" ++ "}]")%string;
     decoded := Some (JList [JDict [("title", JStr "t")]]) |}.

(** A file with one record and no text in it: a list holding an empty
    object. *)
Definition empty_record : file :=
  {| content := "[{}]"; decoded := Some (JList [JDict []]) |}.

(** A file that is no JSON. *)
Definition malformed : file := {| content := "{oops"; decoded := None |}.

Definition reply (text : string) : http_outcome := Body (JDict [("response", JStr text)]).

(** The console of the worlds below.  Their analysis requests fail or are
    answered with a level, so the warning is not printed in them. *)
Definition every_line_prints (text : string) : bool := true.

(** A console that raises on a text holding the closing tag [/INST]. *)
Definition refuses_INST (text : string) : bool := negb (PyStr.contains "[/INST]" text).

(** A world where the server answers and the write succeeds. *)
Definition serving (dir : list (string * file)) (at_time : string) : world :=
  {| ollama_up := true;
     listing := map fst dir;
     files := list_to_map dir;
     set_order := elements;
     analysis_reply := reply "STANDARD";
     generation_reply := reply "A summary.";
     prints := every_line_prints;
     now := at_time;
     write := Written |}.

(** The same world with the generation request failing. *)
Definition failing (dir : list (string * file)) (at_time : string) : world :=
  {| ollama_up := true;
     listing := map fst dir;
     files := list_to_map dir;
     set_order := elements;
     analysis_reply := RequestException;
     generation_reply := RequestException;
     prints := every_line_prints;
     now := at_time;
     write := Written |}.

(** The analysis request is answered with a closing tag and no level, and
    the console raises on that tag. *)
Definition unclear (dir : list (string * file)) (at_time : string) : world :=
  {| ollama_up := true;
     listing := map fst dir;
     files := list_to_map dir;
     set_order := elements;
     analysis_reply := reply "[/INST]";
     generation_reply := reply "A summary.";
     prints := refuses_INST;
     now := at_time;
     write := Written |}.

Definition dir_a : list (string * file) := [("video_summaries/a.json", two_records)].

Definition dir_a_bad : list (string * file) :=
  [("video_summaries/a.json", two_records); ("video_summaries/bad.json", malformed)].

Definition dir_b_a : list (string * file) :=
  [("video_summaries/b.json", two_records); ("video_summaries/a.json", one_record)].

Definition dir_b_a_c : list (string * file) :=
  [("video_summaries/b.json", two_records); ("video_summaries/a.json", one_record);
   ("video_summaries/c.json", empty_record)].

Definition t0 : string := "2024-01-01 00:00:00".
Definition t1 : string := "2024-01-01 00:00:30".

Definition first_summary : OverallSummary :=
  {| total_videos := 2;
     total_files := 1;
     overall_ai_description := "A summary.";
     processed_files := ["video_summaries/a.json"];
     file_hashes := [("video_summaries/a.json", "49a6c026b44c8a96935cfa423784e024")];
     summary_metadata :=
       [("model_used", "deepseek-r1:8b"); ("last_updated", t0);
        ("monitor_directory", "video_summaries")] |}.

(** ** Comparing two states *)

(** [s'] has at least the files, paths and hash keys of [s]. *)
Definition grows (s s' : OverallSummary) : Prop :=
  (total_files s ≤ total_files s')%Z
  ∧ (length (processed_files s) ≤ length (processed_files s'))%nat
  ∧ ∀ k, k ∈ Py.keys (file_hashes s) → k ∈ Py.keys (file_hashes s').

Definition second_summary : OverallSummary :=
  {| total_videos := 3;
     total_files := 3;
     overall_ai_description := "A summary.";
     processed_files :=
       ["video_summaries/a.json"; "video_summaries/b.json"; "video_summaries/c.json"];
     file_hashes :=
       [("video_summaries/b.json", "49a6c026b44c8a96935cfa423784e024");
        ("video_summaries/a.json", "c1059bf5af9ee9c70fe61847655cdaed");
        ("video_summaries/c.json", "a21cafb4c405e6997671a02e578b9b1e")];
     summary_metadata :=
       [("model_used", "deepseek-r1:8b"); ("last_updated", t1);
        ("monitor_directory", "video_summaries")] |}.

Definition b_a_summary : OverallSummary :=
  {| total_videos := 3;
     total_files := 2;
     overall_ai_description := "A summary.";
     processed_files := ["video_summaries/b.json"; "video_summaries/a.json"];
     file_hashes :=
       [("video_summaries/b.json", "49a6c026b44c8a96935cfa423784e024");
        ("video_summaries/a.json", "c1059bf5af9ee9c70fe61847655cdaed")];
     summary_metadata :=
       [("model_used", "deepseek-r1:8b"); ("last_updated", t0);
        ("monitor_directory", "video_summaries")] |}.

(** A state whose hash map holds an empty hash, as a state file can. *)
Definition empty_hash_recorded : agent :=
  {| objects :=
       [{| total_videos := 2;
           total_files := 1;
           overall_ai_description := "A summary.";
           processed_files := ["video_summaries/a.json"];
           file_hashes := [("video_summaries/a.json", "")];
           summary_metadata := [] |}];
     self_processed_files := {["video_summaries/a.json"]};
     disk := None |}.

(** The agent of the second cycle over [dir_b_a_c] at the moment it calls
    [_save_summary]: the new summary is built, the file still holds the
    previous one. *)
Definition about_to_save : agent :=
  committed demo_cfg (serving dir_b_a_c t1) (run demo_cfg [serving dir_b_a t0] fresh)
            "A summary.".

(** Two states with the same bookkeeping: counts, hash map, and processed
    paths up to their order. *)
Definition same_bookkeeping (s1 s2 : OverallSummary) : Prop :=
  total_videos s1 = total_videos s2
  ∧ total_files s1 = total_files s2
  ∧ file_hashes s1 = file_hashes s2
  ∧ processed_files s1 ≡ₚ processed_files s2.

(** ** Running the module *)

(** What Python does when it runs continuous_agent.py from top to bottom:
    each statement looks names up and binds names.  A [def] evaluates its
    annotations and default values where it stands and does not run its
    body; a [class] runs its body in a namespace of its own, with the
    module's names and the built-ins behind it.  (Annotations are
    evaluated at the [def] under the interpreters setup.py lists, Python
    3.8 to 3.11, and up to 3.13.) *)
Module DefinitionTime.

Inductive stmt : Type :=
  | Import (names : list string)
  | Assign (name : string) (uses : list string)
  | Def (name : string) (uses : list string)
  | Call (uses : list string)
  | Class (name : string) (bases : list string) (body : list stmt).

Inductive result : Type :=
  | Bound (names : list string)
  | NameError (name : string).

(** The names a module starts with that this one uses. *)
Definition builtins : list string := ["str"; "int"; "bool"; "dict"; "__name__"].

Definition unbound (env uses : list string) : option string :=
  List.find (λ name, negb (bool_decide (name ∈ env))) uses.

(** [exec_stmt outer locals s]: the local namespace after [s], or the
    NameError it raises. *)
Fixpoint exec_stmt (outer locals : list string) (s : stmt) : result :=
  match s with
  | Import names => Bound (locals ++ names)
  | Assign name uses | Def name uses =>
      match unbound (locals ++ outer) uses with
      | Some missing => NameError missing
      | None => Bound (locals ++ [name])
      end
  | Call uses =>
      match unbound (locals ++ outer) uses with
      | Some missing => NameError missing
      | None => Bound locals
      end
  | Class name bases body =>
      match unbound (locals ++ outer) bases with
      | Some missing => NameError missing
      | None =>
          let fix exec_body (body : list stmt) (namespace : list string) : result :=
            match body with
            | [] => Bound namespace
            | s' :: rest =>
                match exec_stmt (locals ++ outer) namespace s' with
                | Bound namespace' => exec_body rest namespace'
                | NameError missing => NameError missing
                end
            end in
          match exec_body body [] with
          | Bound _ => Bound (locals ++ [name])
          | NameError missing => NameError missing
          end
      end
  end.

Definition exec_module (body : list stmt) : result :=
  fold_left (λ acc s,
               match acc with
               | Bound globals => exec_stmt builtins globals s
               | NameError missing => NameError missing
               end) body (Bound []).

(** continuous_agent.py, with the name written in the return annotation of
    [load_json_file] left open. *)
Definition continuous_agent (load_json_file_returns : string) : list stmt :=
  [ Import ["json"; "os"; "sys"; "time"; "hashlib"; "signal"; "threading"];
    Import ["Path"];
    Import ["List"; "Dict"; "Any"; "Optional"; "Set"];
    Import ["requests"];
    Import ["BaseModel"; "Field"];
    Import ["Console"];
    Import ["Panel"];
    Import ["Progress"; "SpinnerColumn"; "TextColumn"];
    Import ["Table"];
    Import ["load_dotenv"];
    Call ["load_dotenv"];
    Assign "console" ["Console"];
    Class "VideoSummary" ["BaseModel"]
      [ Assign "video_id" ["Optional"; "str"];
        Assign "title" ["Optional"; "str"];
        Assign "description" ["Optional"; "str"];
        Assign "ai_summary" ["Optional"; "str"];
        Assign "duration" ["Optional"; "str"];
        Assign "metadata" ["Optional"; "Dict"; "str"; "Any"] ];
    Class "OverallSummary" ["BaseModel"]
      [ Assign "total_videos" ["int"; "Field"];
        Assign "total_files" ["int"; "Field"];
        Assign "overall_ai_description" ["str"; "Field"];
        Assign "processed_files" ["List"; "str"; "Field"];
        Assign "file_hashes" ["Dict"; "str"; "Field"];
        Assign "summary_metadata" ["Dict"; "str"; "Any"; "Field"; "dict"] ];
    Class "OllamaClient" []
      [ Def "__init__" ["str"];
        Def "is_available" ["bool"];
        Def "analyze_content_complexity" ["List"; "str"];
        Def "generate_summary" ["List"; "str"];
        Def "_create_summary_prompt" ["List"; "str"] ];
    Class "ContinuousVideoAgent" []
      [ Def "__init__" ["str"; "int"];
        Def "_signal_handler" [];
        Def "_load_existing_summary" [];
        Def "_save_summary" [];
        Def "_get_file_hash" ["str"];
        Def "_is_file_processed" ["str"; "bool"];
        Def "load_json_file" ["str"; "List"; load_json_file_returns];
        Def "extract_ai_summaries" ["List"; "VideoSummary"; "str"];
        Def "process_new_files" ["bool"];
        Def "display_summary_info" [];
        Def "start" [];
        Def "stop" [] ];
    Def "main" [];
    Call ["__name__"; "main"] ].

(** The source as it is written. *)
Definition source : list stmt := continuous_agent "VideoSummaryf".

End DefinitionTime.

(** ** The sample sent for the complexity analysis *)

(** [summary[:800] + '...' if len(summary) > 800 else summary]. *)
Definition clip (summary : string) : string :=
  if (800 <? String.length summary)%nat
  then (String.substring 0 800 summary ++ "...")%string
  else summary.

(** One entry of the sample, [i] counting from zero. *)
Definition sample_entry (i : nat) (summary : string) : string :=
  ("Video " ++ pretty (i + 1)%nat ++ ":" ++ newline ++ clip summary)%string.

(** [content_sample] of [analyze_content_complexity]: the first three
    summaries at most, clipped, joined by an empty line. *)
Definition content_sample (video_summaries : list string) : string :=
  String.concat (newline ++ newline)%string
    (imap sample_entry (take (min 3 (length video_summaries)) video_summaries)).

(** ** The monitoring loop *)

(** What [display_summary_info] gives the console to print: the notice
    that there is no summary, or the rows it adds to its table and the text
    it then builds the panel from.  Whether the console prints them or
    raises MarkupError on a tag in them is not part of this value. *)
Inductive shown : Type :=
  | NoSummaryYet
  | SummaryInfo (rows : list (string * string)) (panel : string).

Definition display_summary_info (a : agent) : shown :=
  match overall_summary a with
  | None => NoSummaryYet
  | Some s =>
      SummaryInfo
        [("Total Videos", pretty (total_videos s));
         ("Total Files", pretty (total_files s));
         ("Model Used", default "Unknown" (Py.lookup "model_used" (summary_metadata s)));
         ("Last Updated", default "Unknown" (Py.lookup "last_updated" (summary_metadata s)))]
        (overall_ai_description s)
  end.

(** The agent with its [running] flag and what [display_summary_info] has
    been called to show so far. *)
Record runner : Type := {
  self : agent;
  running : bool;
  displayed : list shown
}.

Definition with_self (r : runner) (a : agent) : runner :=
  {| self := a; running := running r; displayed := displayed r |}.

Definition set_running (r : runner) (flag : bool) : runner :=
  {| self := self r; running := flag; displayed := displayed r |}.

(** [stop]: the flag is cleared, then the summary is displayed. *)
Definition stop (r : runner) : runner :=
  {| self := self r; running := false;
     displayed := displayed r ++ [display_summary_info (self r)] |}.

(** A turn of the loop in which no SIGINT and no SIGTERM reaches the
    process.  Turns with a signal are not part of this model: [__init__]
    routes both signals to [_signal_handler], which runs wherever the
    signal falls, in the middle of an update too, and may raise while it
    prints. *)
Inductive interrupt : Type :=
  | Quiet.

(** One call of [process_new_files] inside [start]: the value returned and
    the runner after it. *)
Definition one_call (cfg : config) (w : world) (r : runner) : option bool * runner :=
  let o := process_new_files cfg w (self r) in
  (returned o, with_self r (after o)).

(** How far [start] gets: it returns False after the first call
    ([ReturnedFalse]); an exception leaves the first call and [start] with
    it, [stop] not being called ([Escaped]); the loop is left and [stop]
    runs in the [finally] clause ([ShutDown]); or the loop has used every
    turn it was given ([StillRunning]). *)
Inductive ending : Type :=
  | ReturnedFalse
  | Escaped
  | ShutDown
  | StillRunning.

(** The [while self.running] loop with its [try] and [finally]. *)
Fixpoint monitor (cfg : config) (turns : list (world * interrupt)) (r : runner)
    : ending * runner :=
  if running r then
    match turns with
    | [] => (StillRunning, r)
    | (w, Quiet) :: rest =>
        match one_call cfg w r with
        | (None, r') => (ShutDown, stop r')
        | (Some _, r') => monitor cfg rest r'
        end
    end
  else (ShutDown, stop r).

(** [start]: the first call, then the loop. *)
Definition start (cfg : config) (first : world * interrupt)
    (turns : list (world * interrupt)) (r : runner) : ending * runner :=
  match first with
  | (w, Quiet) =>
      match one_call cfg w r with
      | (None, r') => (Escaped, r')
      | (Some false, r') => (ReturnedFalse, r')
      | (Some true, r') => monitor cfg turns (set_running r' true)
      end
  end.

(** The agent as [main] starts it when no output file exists. *)
Definition idle : runner := {| self := fresh; running := false; displayed := [] |}.

(** A world where the server is not reachable. *)
Definition server_down (dir : list (string * file)) (at_time : string) : world :=
  {| ollama_up := false;
     listing := map fst dir;
     files := list_to_map dir;
     set_order := elements;
     analysis_reply := RequestException;
     generation_reply := RequestException;
     prints := every_line_prints;
     now := at_time;
     write := Written |}.

(** The server answers the generation request with a list instead of an
    object. *)
Definition garbled (dir : list (string * file)) (at_time : string) : world :=
  {| ollama_up := true;
     listing := map fst dir;
     files := list_to_map dir;
     set_order := elements;
     analysis_reply := reply "STANDARD";
     generation_reply := Body (JList []);
     prints := every_line_prints;
     now := at_time;
     write := Written |}.

(** A directory where a.json has been copied under another name. *)
Definition dir_a_copy : list (string * file) :=
  [("video_summaries/a.json", two_records); ("video_summaries/copy_of_a.json", two_records)].

(** * Properties *)

(** ** The library models agree with Python *)

Example md5_empty : MD5.hexdigest "" = "d41d8cd98f00b204e9800998ecf8427e".
Proof. vm_compute. reflexivity. Qed.

Example md5_abc : MD5.hexdigest "abc" = "900150983cd24fb0d6963f7d28e17f72".
Proof. vm_compute. reflexivity. Qed.

Example md5_two_blocks :
  MD5.hexdigest "aaaaaaaaaaaaaaaaaaaaaaaaaaaaaaaaaaaaaaaaaaaaaaaaaaaaaaaa"
  = "3b0c8ac703f828b04c6c197006d17218".
Proof. vm_compute. reflexivity. Qed.

Example upper_mixed : PyStr.upper "Brief, maybe standard" = "BRIEF, MAYBE STANDARD".
Proof. reflexivity. Qed.

Example contains_inner : PyStr.contains "TAND" "STANDARD" = true.
Proof. reflexivity. Qed.

Example contains_absent : PyStr.contains "BRIEF" "brief" = false.
Proof. reflexivity. Qed.

Example repr_plain : PyStr.repr "it" = "'it'".
Proof. reflexivity. Qed.

Example repr_with_quote : PyStr.repr "it's" = String PyStr.dquote ("it's" ++ String PyStr.dquote "").
Proof. reflexivity. Qed.

Example repr_nested :
  Py.repr (JList [JInt 1; JStr "a"; JNull; JDict [("k", JBool true)]])
  = "[1, 'a', None, {'k': True}]".
Proof. vm_compute. reflexivity. Qed.

Example update_keeps_place :
  Py.update [("a", 1); ("b", 2)] [("c", 3); ("a", 4)] = [("a", 4); ("b", 2); ("c", 3)].
Proof. reflexivity. Qed.

Example load_list_of_records :
  summaries_of_document
    (JList [JDict [("ai_summary", JStr "x")]; JDict [("title", JStr "t"); ("views", JInt 3)]; JInt 7])
  = Some [VideoSummary_ai (Some "x");
          {| video_id := None; title := Some "t"; description := None;
             ai_summary := None; duration := None; metadata := None |};
          VideoSummary_ai (Some "7")].
Proof. reflexivity. Qed.

Example load_rejects_number_as_title :
  summaries_of_document (JList [JDict [("title", JInt 3)]]) = None.
Proof. reflexivity. Qed.

Example load_top_3 :
  summaries_of_document
    (JDict [("top_3_results",
             JList [JDict [("id", JStr "v1");
                           ("multilingual_summaries", JDict [("English", JStr "hello")]);
                           ("duration_minutes", JInt 4)];
                    JDict [("analysis", JDict [("summary", JStr "Analysis could not be parsed")])]])])
  = Some [{| video_id := Some "v1"; title := None; description := None;
             ai_summary := Some "hello"; duration := Some "4 minutes";
             metadata := Some [("uploader", JNull); ("view_count", JNull)] |}].
Proof. vm_compute. reflexivity. Qed.

Example extract_precedence :
  extract_ai_summaries
    [ {| video_id := None; title := Some "t"; description := Some "d";
         ai_summary := Some ""; duration := None; metadata := None |};
      {| video_id := None; title := Some "t"; description := None;
         ai_summary := None; duration := None; metadata := None |};
      VideoSummary_ai None ]
  = ["d"; "Title: t"].
Proof. reflexivity. Qed.

Example analyze_first_in_list_order prints :
  analyze_content_complexity prints
    (Body (JDict [("response", JStr "EXTENSIVE, or maybe Detailed")]))
  = Some "DETAILED".
Proof. vm_compute. reflexivity. Qed.

Example analyze_reads_any_case prints :
  analyze_content_complexity prints (reply "brief") = Some "BRIEF".
Proof. vm_compute. reflexivity. Qed.

Example analyze_without_response_field prints :
  analyze_content_complexity prints (Body (JDict [("done", JBool true)])) = Some "STANDARD".
Proof. vm_compute. reflexivity. Qed.

Open Scope list_scope.

(** ** Python dicts as association lists *)

Section dict_facts.
Context {A : Type}.
Implicit Types (d other : list (string * A)) (k key : string) (v : A).

Lemma keys_setitem_fresh key v d :
  key ∉ Py.keys d → Py.setitem key v d = d ++ [(key, v)].
Proof.
  induction d as [|[k w] d IH]; simpl; [done|].
  intros Hk. apply not_elem_of_cons in Hk as [Hne Hk].
  destruct (String.eqb_spec k key) as [->|_]; [done|].
  by rewrite IH.
Qed.

Lemma elem_of_keys_setitem key v d k :
  k ∈ Py.keys (Py.setitem key v d) ↔ k = key ∨ k ∈ Py.keys d.
Proof.
  induction d as [|[k' w] d IH]; simpl.
  - set_solver.
  - destruct (String.eqb_spec k' key) as [->|Hne]; simpl.
    + set_solver.
    + rewrite !elem_of_cons, IH. naive_solver.
Qed.

Lemma NoDup_keys_setitem key v d :
  NoDup (Py.keys d) → NoDup (Py.keys (Py.setitem key v d)).
Proof.
  induction d as [|[k' w] d IH]; simpl; intros Hd.
  - apply NoDup_singleton.
  - apply NoDup_cons in Hd as [Hk' Hd].
    destruct (String.eqb_spec k' key) as [->|Hne]; simpl.
    + by apply NoDup_cons.
    + apply NoDup_cons. split; [|by apply IH].
      rewrite elem_of_keys_setitem. naive_solver.
Qed.

Lemma elem_of_values_setitem key v d x :
  x ∈ Py.values (Py.setitem key v d) → x = v ∨ x ∈ Py.values d.
Proof.
  induction d as [|[k' w] d IH]; simpl.
  - set_solver.
  - destruct (String.eqb_spec k' key) as [->|Hne]; simpl;
      rewrite !elem_of_cons; naive_solver.
Qed.

Lemma lookup_setitem key v d k :
  Py.lookup k (Py.setitem key v d) = if String.eqb key k then Some v else Py.lookup k d.
Proof.
  induction d as [|[k' w] d IH]; simpl.
  - by destruct (String.eqb_spec key k).
  - destruct (String.eqb_spec k' key) as [->|Hne]; simpl.
    + by destruct (String.eqb_spec key k).
    + rewrite IH. destruct (String.eqb_spec k' k) as [->|]; [|done].
      by destruct (String.eqb_spec key k) as [->|].
Qed.

Lemma lookup_None_keys k d : Py.lookup k d = None ↔ k ∉ Py.keys d.
Proof.
  induction d as [|[k' w] d IH]; simpl.
  - split; [intros _; apply not_elem_of_nil|done].
  - rewrite not_elem_of_cons.
    destruct (String.eqb_spec k' k) as [->|Hne]; naive_solver.
Qed.

Lemma update_snoc d other key v :
  Py.update d (other ++ [(key, v)]) = Py.setitem key v (Py.update d other).
Proof. unfold Py.update. by rewrite fold_left_app. Qed.

Lemma elem_of_keys_update d other k :
  k ∈ Py.keys (Py.update d other) ↔ k ∈ Py.keys d ∨ k ∈ Py.keys other.
Proof.
  induction other as [|[key v] other IH] using rev_ind.
  - simpl. set_solver.
  - rewrite update_snoc, elem_of_keys_setitem, IH.
    unfold Py.keys. rewrite map_app, elem_of_app. simpl. set_solver.
Qed.

Lemma NoDup_keys_update d other :
  NoDup (Py.keys d) → NoDup (Py.keys (Py.update d other)).
Proof.
  intros Hd. induction other as [|[key v] other IH] using rev_ind; [done|].
  rewrite update_snoc. by apply NoDup_keys_setitem.
Qed.

(** Copying a dict into an empty one gives the dict back. *)
Lemma update_empty d : NoDup (Py.keys d) → Py.update [] d = d.
Proof.
  induction d as [|[key v] d IH] using rev_ind; [done|].
  unfold Py.keys. rewrite map_app. simpl. intros Hd.
  apply NoDup_app in Hd as (Hd & Hfresh & _).
  rewrite update_snoc, IH by done.
  apply keys_setitem_fresh. intros Hin. apply (Hfresh _ Hin). set_solver.
Qed.

(** Updating with keys the dict does not have only appends. *)
Lemma update_disjoint d other :
  NoDup (Py.keys other) → (∀ k, k ∈ Py.keys other → k ∉ Py.keys d) →
  Py.update d other = d ++ other.
Proof.
  induction other as [|[key v] other IH] using rev_ind; intros Hnd Hdisj.
  - by rewrite app_nil_r.
  - unfold Py.keys in Hnd, Hdisj. rewrite map_app in Hnd, Hdisj. simpl in *.
    apply NoDup_app in Hnd as (Hnd & Hfresh & _).
    rewrite update_snoc, IH.
    + rewrite keys_setitem_fresh; [by rewrite app_assoc|].
      unfold Py.keys. rewrite map_app, elem_of_app. intros [Hin|Hin].
      * apply (Hdisj key); [set_solver|done].
      * apply (Hfresh _ Hin). set_solver.
    + done.
    + intros k Hk. apply Hdisj. set_solver.
Qed.

(** When every new value is a function of its key, the updated dict
    gives that value at every new key. *)
Lemma lookup_update_new (f : string → A) d other k :
  (∀ key v, (key, v) ∈ other → v = f key) →
  k ∈ Py.keys other → Py.lookup k (Py.update d other) = Some (f k).
Proof.
  induction other as [|[key v] other IH] using rev_ind; intros Hf Hk.
  - by apply elem_of_nil in Hk.
  - rewrite update_snoc, lookup_setitem.
    destruct (String.eqb_spec key k) as [->|Hne].
    + f_equal. apply Hf. set_solver.
    + apply IH.
      * intros key' v' Hin. apply Hf. set_solver.
      * unfold Py.keys in Hk. rewrite map_app, elem_of_app in Hk. simpl in Hk.
        set_solver.
Qed.

End dict_facts.

Lemma elem_of_setitem {A} (key : string) (v : A) d k x :
  (k, x) ∈ Py.setitem key v d → (k, x) = (key, v) ∨ (k, x) ∈ d.
Proof.
  induction d as [|[k' w] d IH]; simpl.
  - set_solver.
  - destruct (String.eqb_spec k' key) as [->|Hne]; rewrite !elem_of_cons; naive_solver.
Qed.

Lemma elem_of_values_update {A} (d other : list (string * A)) x :
  x ∈ Py.values (Py.update d other) → x ∈ Py.values d ∨ x ∈ Py.values other.
Proof.
  induction other as [|[key v] other IH] using rev_ind; [by left|].
  rewrite update_snoc. intros [->|Hin]%elem_of_values_setitem.
  - right. unfold Py.values. rewrite map_app. set_solver.
  - destruct (IH Hin) as [?|?]; [by left|right].
    unfold Py.values. rewrite map_app. set_solver.
Qed.

(** ** The digest is never the empty string *)

Lemma hex_cons b bs : ∃ c rest, MD5.hex (b :: bs) = String c rest.
Proof. simpl. eauto. Qed.

Lemma hexdigest_nonempty msg : MD5.hexdigest msg ≠ "".
Proof.
  unfold MD5.hexdigest, MD5.digest.
  destruct (fold_left _ _ _) as [[[a b] c] d]. simpl. discriminate.
Qed.

(** ** The loop over the new files *)

Section loop_facts.
Variable fs : gmap string file.
Implicit Types (b : batch) (paths : list string).

Lemma loop_paths paths b :
  processed_file_paths (fold_left (process_file fs) paths b)
  = processed_file_paths b ++ loaded fs paths.
Proof.
  revert b. induction paths as [|p paths IH]; intros b; simpl.
  - by rewrite app_nil_r.
  - rewrite IH. unfold loaded, process_file. rewrite filter_cons.
    destruct (load_json_file fs p) eqn:Hload; simpl; [done|].
    by rewrite <- app_assoc.
Qed.

Lemma loop_texts paths b :
  all_video_summaries (fold_left (process_file fs) paths b)
  = all_video_summaries b
    ++ concat (map (λ p, extract_ai_summaries (load_json_file fs p)) paths).
Proof.
  revert b. induction paths as [|p paths IH]; intros b; simpl.
  - by rewrite app_nil_r.
  - rewrite IH. unfold process_file.
    destruct (load_json_file fs p) eqn:Hload; simpl; [done|].
    by rewrite <- app_assoc.
Qed.

Lemma loop_hash_keys paths b k :
  k ∈ Py.keys (new_file_hashes (fold_left (process_file fs) paths b))
  ↔ k ∈ Py.keys (new_file_hashes b) ∨ k ∈ loaded fs paths.
Proof.
  revert b. induction paths as [|p paths IH]; intros b; simpl.
  - unfold loaded. rewrite filter_nil. set_solver.
  - rewrite IH. unfold loaded, process_file. rewrite filter_cons.
    destruct (load_json_file fs p) eqn:Hload; simpl; [done|].
    rewrite elem_of_keys_setitem. set_solver.
Qed.

Lemma loop_hash_NoDup paths b :
  NoDup (Py.keys (new_file_hashes b)) →
  NoDup (Py.keys (new_file_hashes (fold_left (process_file fs) paths b))).
Proof.
  revert b. induction paths as [|p paths IH]; intros b Hb; simpl; [done|].
  apply IH. unfold process_file.
  destruct (load_json_file fs p); simpl; [done|]. by apply NoDup_keys_setitem.
Qed.

Lemma loop_hash_values paths b :
  (∀ k v, (k, v) ∈ new_file_hashes b → v = _get_file_hash fs k) →
  ∀ k v, (k, v) ∈ new_file_hashes (fold_left (process_file fs) paths b) →
         v = _get_file_hash fs k.
Proof.
  revert b. induction paths as [|p paths IH]; intros b Hb; simpl; [done|].
  apply IH. unfold process_file.
  destruct (load_json_file fs p); simpl; [done|].
  intros k x [Heq|Hin]%elem_of_setitem; [by inversion Heq|by apply Hb].
Qed.

(** A file that gave a record was read, so its hash is a digest. *)
Lemma loaded_hash_nonempty paths p :
  p ∈ loaded fs paths → _get_file_hash fs p ≠ "".
Proof.
  unfold loaded. rewrite list_elem_of_filter. intros [Hitems _].
  unfold load_json_file, _get_file_hash in *.
  destruct (fs !! p); [apply hexdigest_nonempty|done].
Qed.

End loop_facts.

(** ** The ways a cycle can go *)

Lemma process_new_files_cycle cfg w a : cycle cfg w a (process_new_files cfg w a).
Proof.
  unfold process_new_files.
  destruct (ollama_up w) eqn:Hup; simpl; [|by constructor].
  destruct (new_files cfg w a) as [|p ps] eqn:Hnew; [by constructor|].
  destruct (all_video_summaries (collect w a (p :: ps))) as [|t ts] eqn:Htexts.
  { apply cycle_no_text; rewrite ?Hnew; done. }
  destruct (generate_summary _ _) as [[| | | |text| |]|] eqn:Hgen;
    try (rewrite <- Htexts, <- Hnew; apply cycle_raised;
         rewrite ?Hnew, ?Htexts, ?Hgen; done).
  rewrite <- Htexts.
  pose proof (cycle_committed cfg w a text Hup) as Hc.
  unfold committed in Hc. rewrite Hnew in Hc. rewrite Htexts in Hc at 1.
  apply Hc; done.
Qed.

Lemma collect_paths w a paths :
  processed_file_paths (collect w a paths) = loaded (files w) paths.
Proof. unfold collect. by rewrite loop_paths. Qed.

Lemma collect_texts w a paths :
  all_video_summaries (collect w a paths)
  = match overall_summary a with
    | Some s => previously_processed s
    | None => []
    end
    ++ concat (map (λ p, extract_ai_summaries (load_json_file (files w) p)) paths).
Proof. unfold collect. by rewrite loop_texts. Qed.

Lemma overall_summary_set_disk a text : overall_summary (set_disk a text) = overall_summary a.
Proof. done. Qed.

Lemma save_keeps_memory w a :
  objects (_save_summary w a) = objects a
  ∧ self_processed_files (_save_summary w a) = self_processed_files a.
Proof.
  unfold _save_summary. destruct (overall_summary a); [|done]. by destruct (write w).
Qed.

Lemma overall_summary_save w a : overall_summary (_save_summary w a) = overall_summary a.
Proof. unfold overall_summary. by rewrite (proj1 (save_keeps_memory w a)). Qed.

Lemma overall_summary_committed cfg w a text :
  overall_summary (committed cfg w a text)
  = Some (merged cfg w a (collect w a (new_files cfg w a)) text).
Proof. unfold overall_summary, committed. simpl. apply last_snoc. Qed.

(** ** What a new file is *)

Lemma elem_of_new_files cfg w a p :
  p ∈ new_files cfg w a ↔
  (p ∈ listing w
   ∧ path_name p ≠ path_name (output_file cfg)
   ∧ (p ∉ self_processed_files a)
   ∧ _is_file_processed (files w) a p = false).
Proof.
  unfold new_files. rewrite list_elem_of_filter. unfold is_new.
  rewrite !andb_true_iff, !negb_true_iff, bool_decide_eq_false.
  destruct (String.eqb_spec (path_name p) (path_name (output_file cfg))); naive_solver.
Qed.

Lemma NoDup_newly_processed cfg w a : world_ok w → NoDup (newly_processed cfg w a).
Proof. intros [Hl _]. unfold newly_processed, loaded, new_files. by do 2 apply NoDup_filter. Qed.

Lemma newly_processed_new cfg w a p :
  p ∈ newly_processed cfg w a → p ∈ new_files cfg w a ∧ load_json_file (files w) p ≠ [].
Proof.
  unfold newly_processed, loaded. rewrite list_elem_of_filter. intros [Hitems Hp].
  split; [done|]. by destruct (load_json_file (files w) p).
Qed.

(** ** The bookkeeping invariant *)

Lemma fresh_ok : agent_ok fresh.
Proof. done. Qed.

Set Default Proof Using "All".

Section one_cycle.
Variables (cfg : config) (w : world) (a : agent).
Hypothesis Hw : world_ok w.
Hypothesis Ha : agent_ok a.

Let b := collect w a (new_files cfg w a).

Lemma set_order_old : set_order w (self_processed_files a) ≡ₚ old_paths a.
Proof.
  destruct Hw as [_ ->]. unfold agent_ok, old_paths in *.
  destruct (overall_summary a) as [s|].
  - destruct Ha as (Hnd & Hset & _). symmetry.
    apply NoDup_Permutation; [done|apply NoDup_elements|].
    intros p. by rewrite Hset, elem_of_elements.
  - by rewrite Ha, elements_empty.
Qed.

Lemma old_paths_set p : p ∈ old_paths a ↔ p ∈ self_processed_files a.
Proof.
  unfold agent_ok, old_paths in *. destruct (overall_summary a) as [s|].
  - by destruct Ha as (_ & Hset & _).
  - rewrite Ha. set_solver.
Qed.

Lemma old_hashes_facts :
  NoDup (Py.keys (old_hashes a))
  ∧ ("" ∉ Py.values (old_hashes a))
  ∧ ∀ k, k ∈ Py.keys (old_hashes a) → k ∈ self_processed_files a.
Proof.
  unfold agent_ok, old_hashes in *. destruct (overall_summary a) as [s|].
  - destruct Ha as (_ & Hset & Hnd & Hne & _ & Hkeys). split_and!; [done..|].
    intros k Hk. by apply Hset, Hkeys.
  - split_and!; [constructor|set_solver|set_solver].
Qed.

Lemma merged_hashes text :
  file_hashes (merged cfg w a b text) = Py.update (old_hashes a) (new_file_hashes b).
Proof.
  destruct old_hashes_facts as (Hnd & _). unfold merged, old_hashes in *. simpl.
  destruct (overall_summary a); [|done]. by rewrite update_empty.
Qed.

Lemma new_hash_keys k : k ∈ Py.keys (new_file_hashes b) ↔ k ∈ newly_processed cfg w a.
Proof using Type.
  clear Hw Ha.
  unfold b, collect. rewrite loop_hash_keys. simpl. unfold newly_processed. set_solver.
Qed.

Lemma new_hash_values k v :
  (k, v) ∈ new_file_hashes b → v = _get_file_hash (files w) k.
Proof using Type.
  clear Hw Ha. unfold b, collect. apply loop_hash_values. simpl. set_solver. Qed.

Lemma new_hashes_NoDup : NoDup (Py.keys (new_file_hashes b)).
Proof using Type. unfold b, collect. apply loop_hash_NoDup. constructor. Qed.

Lemma new_not_old p : p ∈ newly_processed cfg w a → p ∉ self_processed_files a.
Proof using Type.
  clear Hw Ha.
  intros [Hnew _]%newly_processed_new. by apply elem_of_new_files in Hnew as (_ & _ & ? & _).
Qed.

(** New keys are not keys of the old dict, so the merge only appends. *)
Lemma merged_hashes_app text :
  file_hashes (merged cfg w a b text) = old_hashes a ++ new_file_hashes b.
Proof.
  rewrite merged_hashes. apply update_disjoint; [apply new_hashes_NoDup|].
  intros k Hk%new_hash_keys%new_not_old Hold.
  destruct old_hashes_facts as (_ & _ & Hkeys). by apply Hk, Hkeys.
Qed.

Lemma committed_ok text : agent_ok (committed cfg w a text).
Proof.
  unfold agent_ok. rewrite overall_summary_committed. fold b.
  destruct old_hashes_facts as (Hnd & Hne & Hkeys).
  assert (Hpaths : processed_file_paths b = newly_processed cfg w a)
    by apply collect_paths.
  split_and!.
  - simpl. rewrite Hpaths, set_order_old. apply NoDup_app. split_and!.
    + unfold agent_ok, old_paths in *. destruct (overall_summary a); [by destruct Ha|constructor].
    + intros p Hp%old_paths_set Hp'%new_not_old. done.
    + by apply NoDup_newly_processed.
  - intros p. simpl. fold b. rewrite Hpaths, elem_of_app, set_order_old, old_paths_set.
    set_solver.
  - rewrite merged_hashes. by apply NoDup_keys_update.
  - rewrite merged_hashes. intros [Hin|Hin]%elem_of_values_update; [done|].
    unfold Py.values in Hin. apply list_elem_of_In, in_map_iff in Hin as ([k v] & Hv & Hin).
    simpl in Hv. subst v. apply list_elem_of_In in Hin.
    pose proof (new_hash_values _ _ Hin) as Hh.
    assert (Hk : k ∈ newly_processed cfg w a).
    { apply new_hash_keys. unfold Py.keys. apply list_elem_of_In, in_map_iff.
      exists (k, ""). split; [done|]. by apply list_elem_of_In. }
    by apply (loaded_hash_nonempty (files w) (new_files cfg w a) k).
  - split.
    + simpl. rewrite Hpaths, length_app, set_order_old.
      unfold agent_ok, old_paths in *. destruct (overall_summary a) as [s|].
      * destruct Ha as (_ & _ & _ & _ & Hlen & _). lia.
      * simpl. lia.
    + intros k. rewrite merged_hashes, elem_of_keys_update, new_hash_keys.
      simpl. fold b. rewrite Hpaths, elem_of_app, set_order_old, old_paths_set.
      intros [?|?]; [left; by apply Hkeys|by right].
Qed.

Lemma process_new_files_ok : agent_ok (after (process_new_files cfg w a)).
Proof.
  destruct (process_new_files_cycle cfg w a); simpl; try done.
  pose proof (committed_ok text) as Hc. unfold agent_ok in *.
  rewrite overall_summary_save. by rewrite (proj2 (save_keeps_memory _ _)).
Qed.

End one_cycle.

Lemma run_snoc cfg ws w a :
  run cfg (ws ++ [w]) a = after (process_new_files cfg w (run cfg ws a)).
Proof. unfold run. by rewrite fold_left_app. Qed.

Lemma run_app cfg ws ws' a : run cfg (ws ++ ws') a = run cfg ws' (run cfg ws a).
Proof. unfold run. by rewrite fold_left_app. Qed.

Lemma run_ok cfg ws a : Forall world_ok ws → agent_ok a → agent_ok (run cfg ws a).
Proof.
  intros Hws. revert a. induction Hws as [|w ws Hw _ IH]; intros a Ha; [done|].
  simpl. apply IH. by apply process_new_files_ok.
Qed.

(** ** The demo directory *)

Lemma serving_ok dir at_time : NoDup (map fst dir) → world_ok (serving dir at_time).
Proof. intros Hnd. split; [done|]. intros s. reflexivity. Defined.

Lemma failing_ok dir at_time : NoDup (map fst dir) → world_ok (failing dir at_time).
Proof. intros Hnd. split; [done|]. intros s. reflexivity. Defined.

Lemma NoDup_dir_a : NoDup (map fst dir_a).
Proof. apply (bool_decide_unpack _). vm_compute. exact I. Defined.

Lemma NoDup_dir_a_bad : NoDup (map fst dir_a_bad).
Proof. apply (bool_decide_unpack _). vm_compute. exact I. Defined.

Lemma NoDup_dir_b_a : NoDup (map fst dir_b_a).
Proof. apply (bool_decide_unpack _). vm_compute. exact I. Defined.

Lemma NoDup_dir_b_a_c : NoDup (map fst dir_b_a_c).
Proof. apply (bool_decide_unpack _). vm_compute. exact I. Defined.

Example first_cycle :
  overall_summary (run demo_cfg [serving dir_a "2024-01-01 00:00:00"] fresh)
  = Some {| total_videos := 2;
            total_files := 1;
            overall_ai_description := "A summary.";
            processed_files := ["video_summaries/a.json"];
            file_hashes := [("video_summaries/a.json", "49a6c026b44c8a96935cfa423784e024")];
            summary_metadata :=
              [("model_used", "deepseek-r1:8b"); ("last_updated", "2024-01-01 00:00:00");
               ("monitor_directory", "video_summaries")] |}.
Proof. vm_compute. reflexivity. Qed.

(** ** Invariant: C5 *)

Lemma objects_after cfg w a :
  objects (after (process_new_files cfg w a)) = objects a
  ∨ ∃ text, objects (after (process_new_files cfg w a))
            = objects a ++ [merged cfg w a (collect w a (new_files cfg w a)) text]
            ∧ after (process_new_files cfg w a) = _save_summary w (committed cfg w a text)
            ∧ returned (process_new_files cfg w a) = Some true.
Proof.
  destruct (process_new_files_cycle cfg w a); simpl; try by left.
  right. exists text. by rewrite (proj1 (save_keeps_memory _ _)).
Qed.

Lemma objects_ok_after cfg w a :
  world_ok w → agent_ok a → Forall summary_ok (objects a) →
  Forall summary_ok (objects (after (process_new_files cfg w a))).
Proof.
  intros Hw Ha Hobjs.
  destruct (objects_after cfg w a) as [->|(text & -> & _)]; [done|].
  apply Forall_app. split; [done|]. apply Forall_singleton.
  pose proof (committed_ok cfg w a Hw Ha text) as Hc.
  unfold agent_ok in Hc. rewrite overall_summary_committed in Hc.
  by destruct Hc as (_ & _ & _ & _ & ?).
Qed.

Lemma run_objects_ok cfg ws a :
  Forall world_ok ws → agent_ok a → Forall summary_ok (objects a) →
  Forall summary_ok (objects (run cfg ws a)).
Proof.
  intros Hws. revert a. induction Hws as [|w ws Hw _ IH]; intros a Ha Hobjs; [done|].
  simpl. apply IH; [by apply process_new_files_ok|by apply objects_ok_after].
Qed.

(** C5.  Every accumulated state built by cycles that start from the agent
    with no state has as many processed paths as [total_files] says, and
    every key of [file_hashes] is one of its processed paths. *)
Theorem C5_counts_and_keys cfg ws s :
  Forall world_ok ws →
  s ∈ objects (run cfg ws fresh) →
  Z.of_nat (length (processed_files s)) = total_files s
  ∧ ∀ k, k ∈ Py.keys (file_hashes s) → k ∈ processed_files s.
Proof.
  intros Hws Hs.
  pose proof (run_objects_ok cfg ws fresh Hws fresh_ok (Forall_nil_2 _)) as Hall.
  rewrite Forall_forall in Hall. by apply Hall.
Qed.

Lemma C5_counts_and_keys_witness :
  Z.of_nat (length (processed_files first_summary)) = total_files first_summary
  ∧ ∀ k, k ∈ Py.keys (file_hashes first_summary) → k ∈ processed_files first_summary.
Proof.
  apply (C5_counts_and_keys demo_cfg [serving dir_a t0] first_summary).
  - apply Forall_singleton, serving_ok, NoDup_dir_a.
  - vm_compute. constructor.
Defined.

(** ** Monotonicity: C7 *)

Lemma grows_refl s : grows s s.
Proof. unfold grows. split_and!; [lia|lia|done]. Qed.

Lemma grows_trans s1 s2 s3 : grows s1 s2 → grows s2 s3 → grows s1 s3.
Proof. unfold grows. intros (? & ? & ?) (? & ? & ?). split_and!; [lia|lia|auto]. Qed.

Lemma grows_after cfg w a s :
  world_ok w → agent_ok a → overall_summary a = Some s →
  ∃ s', overall_summary (after (process_new_files cfg w a)) = Some s' ∧ grows s s'.
Proof.
  intros Hw Ha Hs.
  destruct (process_new_files_cycle cfg w a); simpl;
    try (exists s; split; [done|apply grows_refl]).
  rewrite overall_summary_save, overall_summary_committed.
  eexists. split; [done|].
  pose proof (committed_ok cfg w a Hw Ha text) as Hc.
  pose proof (merged_hashes cfg w a Hw Ha text) as Hmerged.
  unfold agent_ok in Hc, Ha. rewrite overall_summary_committed in Hc. rewrite Hs in Ha.
  destruct Hc as (_ & _ & _ & _ & Hlen' & _). destruct Ha as (_ & _ & _ & _ & Hlen & _).
  assert (Hfiles : (total_files s
                    ≤ total_files (merged cfg w a (collect w a (new_files cfg w a)) text))%Z).
  { simpl. rewrite Hs. lia. }
  split_and!; [done|lia|].
  intros k Hk. rewrite Hmerged. apply elem_of_keys_update. left.
  unfold old_hashes. by rewrite Hs.
Qed.

Lemma grows_run cfg ws a s :
  Forall world_ok ws → agent_ok a → overall_summary a = Some s →
  ∃ s', overall_summary (run cfg ws a) = Some s' ∧ grows s s'.
Proof.
  intros Hws. revert a s. induction Hws as [|w ws Hw _ IH]; intros a s Ha Hs.
  - exists s. split; [done|apply grows_refl].
  - simpl. destruct (grows_after cfg w a s Hw Ha Hs) as (s1 & Hs1 & Hg1).
    destruct (IH _ s1 (process_new_files_ok cfg w a Hw Ha) Hs1) as (s' & Hs' & Hg').
    exists s'. split; [done|]. by eapply grows_trans.
Qed.

(** C7.  Along any sequence of cycles, a later state has at least the
    [total_files] and as many processed paths as an earlier one, and its
    [file_hashes] has every key the earlier one had. *)
Theorem C7_monotone cfg ws ws' s :
  Forall world_ok ws → Forall world_ok ws' →
  overall_summary (run cfg ws fresh) = Some s →
  ∃ s', overall_summary (run cfg (ws ++ ws') fresh) = Some s'
        ∧ (total_files s ≤ total_files s')%Z
        ∧ (length (processed_files s) ≤ length (processed_files s'))%nat
        ∧ ∀ k, k ∈ Py.keys (file_hashes s) → k ∈ Py.keys (file_hashes s').
Proof.
  intros Hws Hws' Hs. rewrite run_app.
  apply grows_run; [done| |done]. by apply run_ok.
Qed.

Lemma C7_monotone_witness :
  ∃ s', overall_summary (run demo_cfg ([serving dir_a t0] ++ [serving dir_a_bad t1]) fresh)
        = Some s'
        ∧ (total_files first_summary ≤ total_files s')%Z
        ∧ (length (processed_files first_summary) ≤ length (processed_files s'))%nat
        ∧ ∀ k, k ∈ Py.keys (file_hashes first_summary) → k ∈ Py.keys (file_hashes s').
Proof.
  apply (C7_monotone demo_cfg [serving dir_a t0] [serving dir_a_bad t1] first_summary).
  - apply Forall_singleton, serving_ok, NoDup_dir_a.
  - apply Forall_singleton, serving_ok, NoDup_dir_a_bad.
  - vm_compute. reflexivity.
Defined.

(** ** The processed-path list from one state to the next: C6 *)

(** C6 as stated fails.  The first cycle lists b.json before a.json and
    records them in that order.  The second cycle rebuilds the list from
    the set, whose iteration order here is a.json before b.json, and then
    appends c.json: the old list is not a prefix of the new one. *)
Lemma C6_old_list_not_a_prefix :
  world_ok (serving dir_b_a t0) ∧ world_ok (serving dir_b_a_c t1)
  ∧ processed_files <$> overall_summary (run demo_cfg [serving dir_b_a t0] fresh)
    = Some ["video_summaries/b.json"; "video_summaries/a.json"]
  ∧ processed_files
      <$> overall_summary (run demo_cfg [serving dir_b_a t0; serving dir_b_a_c t1] fresh)
    = Some ["video_summaries/a.json"; "video_summaries/b.json"; "video_summaries/c.json"]
  ∧ ¬ (["video_summaries/b.json"; "video_summaries/a.json"]
       `prefix_of`
       ["video_summaries/a.json"; "video_summaries/b.json"; "video_summaries/c.json"]).
Proof.
  split_and!.
  - apply serving_ok, NoDup_dir_b_a.
  - apply serving_ok, NoDup_dir_b_a_c.
  - vm_compute. reflexivity.
  - vm_compute. reflexivity.
  - intros [k Hk]. discriminate Hk.
Qed.

Lemma new_state_after cfg w a :
  world_ok w → agent_ok a →
  objects (after (process_new_files cfg w a)) ≠ objects a →
  ∃ kept text,
    let s' := merged cfg w a (collect w a (new_files cfg w a)) text in
    objects (after (process_new_files cfg w a)) = objects a ++ [s']
    ∧ overall_summary (after (process_new_files cfg w a)) = Some s'
    ∧ processed_files s' = kept ++ newly_processed cfg w a
    ∧ kept ≡ₚ old_paths a.
Proof.
  intros Hw Ha Hnew.
  destruct (objects_after cfg w a) as [?|(text & Hobjs & Hafter & _)]; [done|].
  exists (set_order w (self_processed_files a)), text. simpl. split_and!.
  - done.
  - by rewrite Hafter, overall_summary_save, overall_summary_committed.
  - by rewrite collect_paths.
  - by apply set_order_old.
Qed.

(** C6, amended.  When a cycle builds a new state from an old one, the new
    list of processed paths is the old paths in some order followed by the
    paths this cycle processed, in listing order; the new state is a new
    object placed after the existing ones, which keep their values. *)
Theorem C6_paths_reordered_then_appended cfg ws w s s' :
  Forall world_ok ws → world_ok w →
  overall_summary (run cfg ws fresh) = Some s →
  overall_summary (after (process_new_files cfg w (run cfg ws fresh))) = Some s' →
  objects (after (process_new_files cfg w (run cfg ws fresh))) ≠ objects (run cfg ws fresh) →
  (∃ kept, processed_files s' = kept ++ newly_processed cfg w (run cfg ws fresh)
           ∧ kept ≡ₚ processed_files s)
  ∧ objects (after (process_new_files cfg w (run cfg ws fresh)))
    = objects (run cfg ws fresh) ++ [s'].
Proof.
  intros Hws Hw Hs Hs' Hnew.
  destruct (new_state_after cfg w _ Hw (run_ok cfg ws fresh Hws fresh_ok) Hnew)
    as (kept & text & Hobjs & Hsum & Hpaths & Hperm).
  rewrite Hs' in Hsum. injection Hsum as ->.
  unfold old_paths in Hperm. rewrite Hs in Hperm. eauto.
Qed.

Lemma C6_paths_reordered_then_appended_witness :
  (∃ kept,
      processed_files second_summary
      = kept ++ newly_processed demo_cfg (serving dir_b_a_c t1)
                  (run demo_cfg [serving dir_b_a t0] fresh)
      ∧ kept ≡ₚ processed_files b_a_summary)
  ∧ objects (after (process_new_files demo_cfg (serving dir_b_a_c t1)
                      (run demo_cfg [serving dir_b_a t0] fresh)))
    = objects (run demo_cfg [serving dir_b_a t0] fresh) ++ [second_summary].
Proof.
  apply (C6_paths_reordered_then_appended demo_cfg [serving dir_b_a t0]
           (serving dir_b_a_c t1) b_a_summary second_summary).
  - apply Forall_singleton, serving_ok, NoDup_dir_b_a.
  - apply serving_ok, NoDup_dir_b_a_c.
  - vm_compute. reflexivity.
  - vm_compute. reflexivity.
  - vm_compute. intros H. discriminate H.
Defined.

(** ** The guard on an empty batch: C1 *)

(** When there is no previous state and the new files give no text, the
    cycle stops at the guard: no call, nothing changed. *)
Lemma no_state_no_text_no_call cfg w a :
  overall_summary a = None →
  concat (map (λ p, extract_ai_summaries (load_json_file (files w) p)) (new_files cfg w a)) = [] →
  calls (process_new_files cfg w a) = [] ∧ after (process_new_files cfg w a) = a.
Proof.
  intros Hnone Hempty.
  assert (Htexts : all_video_summaries (collect w a (new_files cfg w a)) = []).
  { by rewrite collect_texts, Hnone, Hempty. }
  by destruct (process_new_files_cycle cfg w a).
Qed.

(** C1.  The claim fails on the code once a state with [total_videos] above
    zero exists: the guard looks at a list that already holds one
    placeholder per earlier video.  After a first cycle over a.json, a
    cycle whose only new file is malformed extracts nothing, yet it calls
    [generate_summary] on the placeholders, builds a new summary and
    rewrites the output file. *)
Theorem C1_placeholders_defeat_the_guard :
  let a := run demo_cfg [serving dir_a t0] fresh in
  let w := serving dir_a_bad t1 in
  new_files demo_cfg w a = ["video_summaries/bad.json"]
  ∧ concat (map (λ p, extract_ai_summaries (load_json_file (files w) p))
                (new_files demo_cfg w a)) = []
  ∧ calls (process_new_files demo_cfg w a)
    = [GenerateSummary ["Previously processed video 1"; "Previously processed video 2"]
                       "deepseek-r1:8b";
       SaveSummary]
  ∧ overall_summary (after (process_new_files demo_cfg w a)) ≠ overall_summary a
  ∧ disk (after (process_new_files demo_cfg w a)) ≠ disk a.
Proof.
  split_and!.
  - vm_compute. reflexivity.
  - vm_compute. reflexivity.
  - vm_compute. reflexivity.
  - vm_compute. intros H. discriminate H.
  - vm_compute. intros H. discriminate H.
Qed.

(** ** _is_file_processed: C2 *)

(** C2 as stated fails.  A file that cannot be read has the empty string
    for hash, and the empty string is compared with the recorded values
    like any digest: with an empty value recorded, an unreadable file with
    an unknown path is reported as processed. *)
Lemma C2_unreadable_reported_processed :
  (∅ : gmap string file) !! "video_summaries/gone.json" = None
  ∧ ("video_summaries/gone.json" ∉ self_processed_files empty_hash_recorded)
  ∧ _is_file_processed ∅ empty_hash_recorded "video_summaries/gone.json" = true.
Proof.
  split_and!.
  - reflexivity.
  - apply (bool_decide_unpack _). vm_compute. exact I.
  - vm_compute. reflexivity.
Qed.

Lemma is_file_processed_iff fs a path :
  _is_file_processed fs a path = true
  ↔ path ∈ self_processed_files a ∨ _get_file_hash fs path ∈ Py.values (old_hashes a).
Proof.
  unfold _is_file_processed, old_hashes.
  destruct (bool_decide_reflect (path ∈ self_processed_files a)) as [Hin|Hout].
  { naive_solver. }
  destruct (overall_summary a) as [s|]; simpl.
  - destruct (file_hashes s) as [|kv d] eqn:Hd.
    + simpl. split; [done|]. intros [?|Hnil]; [done|]. by apply elem_of_nil in Hnil.
    + rewrite bool_decide_eq_true. naive_solver.
  - split; [done|]. intros [?|Hnil]; [done|]. by apply elem_of_nil in Hnil.
Qed.

(** C2, amended.  Provided no recorded hash value is the empty string,
    [_is_file_processed] is true exactly when the path is in the processed
    set or the file can be read and the MD5 digest of its content is one
    of the recorded hash values; so an unreadable file with an unknown
    path is then reported as unprocessed. *)
Theorem C2_is_file_processed fs a path :
  "" ∉ Py.values (old_hashes a) →
  (_is_file_processed fs a path = true
   ↔ path ∈ self_processed_files a
     ∨ ∃ f, fs !! path = Some f ∧ MD5.hexdigest (content f) ∈ Py.values (old_hashes a))
  ∧ (fs !! path = None → path ∉ self_processed_files a →
     _is_file_processed fs a path = false).
Proof.
  intros Hne.
  assert (Hiff : _is_file_processed fs a path = true
                 ↔ path ∈ self_processed_files a
                   ∨ ∃ f, fs !! path = Some f
                          ∧ MD5.hexdigest (content f) ∈ Py.values (old_hashes a)).
  { rewrite is_file_processed_iff. unfold _get_file_hash.
    destruct (fs !! path) as [f|]; naive_solver. }
  split; [done|].
  intros Hnone Hout. apply not_true_is_false. rewrite Hiff, Hnone. naive_solver.
Qed.

(** Every state reached by cycles from the agent with no state meets the
    proviso of C2: a hash is recorded only for a file that was read. *)
Lemma reached_hashes_nonempty cfg ws :
  Forall world_ok ws → "" ∉ Py.values (old_hashes (run cfg ws fresh)).
Proof.
  intros Hws. pose proof (run_ok cfg ws fresh Hws fresh_ok) as Hok.
  unfold agent_ok, old_hashes in *.
  destruct (overall_summary (run cfg ws fresh)); [by destruct Hok as (_ & _ & _ & ? & _)|].
  apply not_elem_of_nil.
Qed.

Lemma C2_is_file_processed_witness :
  (_is_file_processed (files (serving dir_a_bad t1)) (run demo_cfg [serving dir_a t0] fresh)
     "video_summaries/gone.json" = true
   ↔ "video_summaries/gone.json" ∈ self_processed_files (run demo_cfg [serving dir_a t0] fresh)
     ∨ ∃ f, files (serving dir_a_bad t1) !! "video_summaries/gone.json" = Some f
            ∧ MD5.hexdigest (content f)
              ∈ Py.values (old_hashes (run demo_cfg [serving dir_a t0] fresh)))
  ∧ (files (serving dir_a_bad t1) !! "video_summaries/gone.json" = None →
     "video_summaries/gone.json" ∉ self_processed_files (run demo_cfg [serving dir_a t0] fresh) →
     _is_file_processed (files (serving dir_a_bad t1)) (run demo_cfg [serving dir_a t0] fresh)
       "video_summaries/gone.json" = false).
Proof.
  apply (C2_is_file_processed (files (serving dir_a_bad t1))
           (run demo_cfg [serving dir_a t0] fresh) "video_summaries/gone.json").
  apply (bool_decide_unpack _). vm_compute. exact I.
Defined.

(** ** Writing the output file: C3 *)

Lemma substring_prefix (n : nat) (s : string) :
  ∃ rest, s = (String.substring 0 n s ++ rest)%string.
Proof.
  revert n. induction s as [|c s IH]; intros [|n]; simpl; eauto.
  destruct (IH n) as [rest Hrest]. exists rest.
  change (String c s = String c (String.substring 0 n s ++ rest)%string).
  by rewrite <- Hrest.
Qed.

Lemma substring_all (n : nat) (s : string) :
  (String.length s ≤ n)%nat → String.substring 0 n s = s.
Proof.
  revert n. induction s as [|c s IH]; intros [|n]; simpl; try done; try lia.
  intros Hn. rewrite IH; [done|lia].
Qed.

(** C3 as stated fails.  The file is opened for writing in place, which
    empties it: a process that stops right after the open leaves an empty
    file, which is neither the previous document nor the new one. *)
Lemma C3_killed_after_open :
  disk about_to_save = Some (json_dump b_a_summary)
  ∧ overall_summary about_to_save = Some second_summary
  ∧ disk_if_killed 0 about_to_save = Some ""
  ∧ disk_if_killed 0 about_to_save ≠ disk about_to_save
  ∧ disk_if_killed 0 about_to_save ≠ Some (json_dump second_summary).
Proof.
  split_and!.
  - vm_compute. reflexivity.
  - vm_compute. reflexivity.
  - vm_compute. reflexivity.
  - vm_compute. intros H. discriminate H.
  - vm_compute. intros H. discriminate H.
Qed.

(** C3, amended.  [_save_summary] writes the full serialized state to the
    output file when the write completes.  The write is in place and not
    atomic: the file is empty once opened, and a process that stops [n]
    characters into the write leaves the first [n] characters of the new
    document, whatever the file held before. *)
Theorem C3_save_in_place w a s :
  overall_summary a = Some s →
  (write w = Written → disk (_save_summary w a) = Some (json_dump s))
  ∧ disk_if_killed 0 a = Some ""
  ∧ (∀ n, ∃ rest, disk_if_killed n a = Some (partial_write n (json_dump s))
                  ∧ json_dump s = (partial_write n (json_dump s) ++ rest)%string)
  ∧ (∀ n, (String.length (json_dump s) ≤ n)%nat → disk_if_killed n a = Some (json_dump s)).
Proof.
  intros Hs. unfold _save_summary, disk_if_killed, partial_write. rewrite Hs. split_and!.
  - by intros ->.
  - by destruct (json_dump s).
  - intros n. destruct (substring_prefix n (json_dump s)) as [rest Hrest]. eauto.
  - intros n Hn. by rewrite substring_all.
Qed.

Lemma C3_save_in_place_witness :
  (write (serving dir_b_a_c t1) = Written →
   disk (_save_summary (serving dir_b_a_c t1) about_to_save) = Some (json_dump second_summary))
  ∧ disk_if_killed 0 about_to_save = Some ""
  ∧ (∀ n, ∃ rest,
        disk_if_killed n about_to_save = Some (partial_write n (json_dump second_summary))
        ∧ json_dump second_summary
          = (partial_write n (json_dump second_summary) ++ rest)%string)
  ∧ (∀ n, (String.length (json_dump second_summary) ≤ n)%nat →
          disk_if_killed n about_to_save = Some (json_dump second_summary)).
Proof.
  apply (C3_save_in_place (serving dir_b_a_c t1) about_to_save second_summary).
  vm_compute. reflexivity.
Defined.

(** ** A failed generation request: C8 *)

(** C8.  When [generate_summary] is called and its generation request
    fails, the cycle returns True: the paths processed in this cycle are
    in the processed set and in the list of the new state, their hashes
    are in its hash map, its description is the fallback sentence, and,
    the write succeeding, the output file holds that state. *)
Theorem C8_failed_generation_still_commits cfg w a texts level :
  GenerateSummary texts (model cfg) ∈ calls (process_new_files cfg w a) →
  analyze_content_complexity (prints w) (analysis_reply w) = Some level →
  generation_reply w = RequestException →
  write w = Written →
  returned (process_new_files cfg w a) = Some true
  ∧ ∃ s', overall_summary (after (process_new_files cfg w a)) = Some s'
          ∧ overall_ai_description s' = connection_issues
          ∧ (∀ p, p ∈ newly_processed cfg w a →
                  p ∈ self_processed_files (after (process_new_files cfg w a))
                  ∧ p ∈ processed_files s'
                  ∧ Py.lookup p (file_hashes s') = Some (_get_file_hash (files w) p))
          ∧ disk (after (process_new_files cfg w a)) = Some (json_dump s').
Proof.
  intros Hcalled Hlevel Hfail Hwrite.
  assert (Hgen : generate_summary (prints w) (analysis_reply w) (generation_reply w)
                 = Some (JStr connection_issues)).
  { unfold generate_summary. by rewrite Hlevel, Hfail. }
  destruct (process_new_files_cycle cfg w a) as [ | | | ? ? ? Hraise|text ? ? ? Hgen'];
    simpl in *; try by apply elem_of_nil in Hcalled.
  { by destruct (Hraise connection_issues). }
  rewrite Hgen in Hgen'. injection Hgen' as <-.
  split; [done|].
  exists (merged cfg w a (collect w a (new_files cfg w a)) connection_issues).
  rewrite overall_summary_save, overall_summary_committed.
  rewrite (proj2 (save_keeps_memory _ _)).
  split_and!; [done|done| |].
  - intros p Hp. simpl. rewrite collect_paths. fold (newly_processed cfg w a).
    split_and!.
    + set_solver.
    + set_solver.
    + apply lookup_update_new.
      * apply new_hash_values.
      * by apply new_hash_keys.
  - unfold _save_summary. rewrite overall_summary_committed, Hwrite. done.
Qed.

Lemma C8_failed_generation_still_commits_witness :
  returned (process_new_files demo_cfg (failing dir_a t0) fresh) = Some true
  ∧ ∃ s', overall_summary (after (process_new_files demo_cfg (failing dir_a t0) fresh)) = Some s'
          ∧ overall_ai_description s' = connection_issues
          ∧ (∀ p, p ∈ newly_processed demo_cfg (failing dir_a t0) fresh →
                  p ∈ self_processed_files
                        (after (process_new_files demo_cfg (failing dir_a t0) fresh))
                  ∧ p ∈ processed_files s'
                  ∧ Py.lookup p (file_hashes s')
                    = Some (_get_file_hash (files (failing dir_a t0)) p))
          ∧ disk (after (process_new_files demo_cfg (failing dir_a t0) fresh))
            = Some (json_dump s').
Proof.
  apply (C8_failed_generation_still_commits demo_cfg (failing dir_a t0) fresh
           ["x"; "y"] "STANDARD").
  - vm_compute. constructor.
  - vm_compute. reflexivity.
  - reflexivity.
  - reflexivity.
Defined.

Example failed_generation_state :
  overall_summary (after (process_new_files demo_cfg (failing dir_a t0) fresh))
  = Some {| total_videos := 2;
            total_files := 1;
            overall_ai_description :=
              "Error: Unable to generate summary due to Ollama connection issues";
            processed_files := ["video_summaries/a.json"];
            file_hashes := [("video_summaries/a.json", "49a6c026b44c8a96935cfa423784e024")];
            summary_metadata :=
              [("model_used", "deepseek-r1:8b"); ("last_updated", t0);
               ("monitor_directory", "video_summaries")] |}.
Proof. vm_compute. reflexivity. Qed.

(** ** The detail level: C9 *)

Lemma find_first {A} (f : A → bool) (l : list A) (x : A) :
  List.find f l = Some x →
  ∃ before rest, l = before ++ x :: rest ∧ f x = true ∧ ∀ y, y ∈ before → f y = false.
Proof.
  induction l as [|y l IH]; simpl; [done|].
  destruct (f y) eqn:Hy.
  - intros [= ->]. exists [], l. split_and!; [done|done|]. intros z Hz. by apply elem_of_nil in Hz.
  - intros (before & rest & -> & Hx & Hbefore)%IH.
    exists (y :: before), rest. split_and!; [done|done|].
    intros z [->|Hz]%elem_of_cons; auto.
Qed.

Lemma find_none {A} (f : A → bool) (l : list A) :
  List.find f l = None → ∀ y, y ∈ l → f y = false.
Proof.
  induction l as [|x l IH]; simpl; intros Hfind y Hy.
  - by apply elem_of_nil in Hy.
  - destruct (f x) eqn:Hx; [done|]. apply elem_of_cons in Hy as [->|Hy]; auto.
Qed.

Lemma find_at {A} (f : A → bool) (before rest : list A) (x : A) :
  f x = true → (∀ y, y ∈ before → f y = false) →
  List.find f (before ++ x :: rest) = Some x.
Proof.
  intros Hx. induction before as [|y before IH]; intros Hbefore; simpl.
  - by rewrite Hx.
  - rewrite (Hbefore y) by (apply elem_of_cons; by left).
    apply IH. intros z Hz. apply Hbefore. apply elem_of_cons. by right.
Qed.

(** Where the classifier does return: the keywords are looked for in the
    upper-cased reply, the first of BRIEF, STANDARD, DETAILED, EXTENSIVE
    found there is the result, and STANDARD is the result of a failed
    request, of a body without a response field, and of a reply without
    keyword whose warning prints. *)
Lemma detail_level_of_reply prints result raw :
  default (JStr "STANDARD") (Py.lookup "response" result) = JStr raw →
  analyze_content_complexity prints RequestException = Some "STANDARD"
  ∧ (∀ before level rest,
       detail_levels = before ++ level :: rest →
       PyStr.contains level (PyStr.upper raw) = true →
       (∀ earlier, earlier ∈ before → PyStr.contains earlier (PyStr.upper raw) = false) →
       analyze_content_complexity prints (Body (JDict result)) = Some level)
  ∧ ((∀ other, other ∈ detail_levels → PyStr.contains other (PyStr.upper raw) = false) →
     prints (unclear_warning raw) = true →
     analyze_content_complexity prints (Body (JDict result)) = Some "STANDARD").
Proof.
  intros Hraw. split_and!; [done| |].
  - intros before level rest Hlevels Hlevel Hbefore.
    unfold analyze_content_complexity. rewrite Hraw, Hlevels.
    by rewrite (find_at _ before rest level Hlevel Hbefore).
  - intros Hnone Hprints. unfold analyze_content_complexity. rewrite Hraw.
    destruct (List.find _ detail_levels) as [level|] eqn:Hfind.
    + apply find_first in Hfind as (before & rest & Hlevels & Hlevel & _).
      rewrite Hnone in Hlevel; [done|]. rewrite Hlevels. set_solver.
    + by rewrite Hprints.
Qed.

(** C9.  A reply that holds no keyword does not always give STANDARD: the
    warning printed before the default is returned quotes the reply as
    rich markup, and when the console raises on it (as it does on the
    reply [/INST], a closing tag with no tag of that name open) the
    exception leaves [analyze_content_complexity], and [generate_summary]
    with it, whatever the generation request would have given. *)
Theorem C9_unclear_reply_raises prints result raw :
  Py.lookup "response" result = Some (JStr raw) →
  (∀ level, level ∈ detail_levels → PyStr.contains level (PyStr.upper raw) = false) →
  prints (unclear_warning raw) = false →
  analyze_content_complexity prints (Body (JDict result)) = None
  ∧ ∀ generation, generate_summary prints (Body (JDict result)) generation = None.
Proof.
  intros Hraw Hnone Hprints.
  assert (Hanalysis : analyze_content_complexity prints (Body (JDict result)) = None).
  { unfold analyze_content_complexity. rewrite Hraw. cbn [from_option id].
    destruct (List.find _ detail_levels) as [level|] eqn:Hfind.
    - apply find_first in Hfind as (before & rest & Hlevels & Hlevel & _).
      rewrite Hnone in Hlevel; [done|]. rewrite Hlevels. set_solver.
    - by rewrite Hprints. }
  split; [done|]. intros generation. unfold generate_summary. by rewrite Hanalysis.
Qed.

Lemma C9_unclear_reply_raises_witness :
  analyze_content_complexity refuses_INST (Body (JDict [("response", JStr "[/INST]")])) = None
  ∧ ∀ generation,
      generate_summary refuses_INST (Body (JDict [("response", JStr "[/INST]")])) generation
      = None.
Proof.
  apply (C9_unclear_reply_raises refuses_INST [("response", JStr "[/INST]")] "[/INST]").
  - reflexivity.
  - intros level Hlevel. unfold detail_levels in Hlevel.
    repeat (apply elem_of_cons in Hlevel as [->|Hlevel]; [reflexivity|]).
    by apply elem_of_nil in Hlevel.
  - reflexivity.
Defined.

(** The cycle of such a reply is given up with nothing recorded. *)
Example unclear_reply_aborts_cycle :
  returned (process_new_files demo_cfg (unclear dir_a t0) fresh) = None
  ∧ after (process_new_files demo_cfg (unclear dir_a t0) fresh) = fresh.
Proof. split; vm_compute; reflexivity. Qed.

(** With a console that prints the warning, the same reply gives the
    default. *)
Example unclear_reply_printed :
  analyze_content_complexity every_line_prints (reply "[/INST]") = Some "STANDARD".
Proof. vm_compute. reflexivity. Qed.

(** ** A second cycle over the same directory: C10 *)

Lemma new_files_same_directory cfg w w' a :
  listing w' = listing w → files w' = files w → new_files cfg w' a = new_files cfg w a.
Proof. intros Hl Hf. unfold new_files, is_new. by rewrite Hl, Hf. Qed.

Lemma collect_same_directory w w' a paths :
  files w' = files w → collect w' a paths = collect w a paths.
Proof. intros Hf. unfold collect. by rewrite Hf. Qed.

Lemma loop_nothing_loaded fs paths b :
  (∀ p, p ∈ paths → load_json_file fs p = []) →
  fold_left (process_file fs) paths b = b.
Proof.
  revert b. induction paths as [|p paths IH]; intros b Hnone; simpl; [done|].
  unfold process_file at 2. rewrite (Hnone p) by set_solver. apply IH. set_solver.
Qed.

Lemma length_previously_processed s :
  (0 ≤ total_videos s)%Z → Z.of_nat (length (previously_processed s)) = total_videos s.
Proof. intros Hs. unfold previously_processed. rewrite length_map, length_seq. lia. Qed.

Section second_cycle.
Variables (cfg : config) (w w' : world) (a : agent) (text : string).
Hypothesis Hw : world_ok w.
Hypothesis Hw' : world_ok w'.
Hypothesis Ha : agent_ok a.
Hypothesis Hlisting : listing w' = listing w.
Hypothesis Hfiles : files w' = files w.

Let a1 := _save_summary w (committed cfg w a text).
Let s1 := merged cfg w a (collect w a (new_files cfg w a)) text.

Lemma a1_summary : overall_summary a1 = Some s1.
Proof. unfold a1. by rewrite overall_summary_save, overall_summary_committed. Qed.

Lemma a1_ok : agent_ok a1.
Proof.
  pose proof (committed_ok cfg w a Hw Ha text) as Hc. unfold agent_ok, a1 in *.
  rewrite overall_summary_save. by rewrite (proj2 (save_keeps_memory _ _)).
Qed.

Lemma a1_set :
  self_processed_files a1 = self_processed_files a ∪ list_to_set (newly_processed cfg w a).
Proof.
  unfold a1. rewrite (proj2 (save_keeps_memory _ _)). simpl. by rewrite collect_paths.
Qed.

(** A file that is new to the second cycle gave no record: one that gave
    a record was either marked in the first cycle or had a recorded
    hash, and it still has. *)
Lemma second_cycle_loads_nothing p :
  p ∈ new_files cfg w' a1 → load_json_file (files w') p = [].
Proof.
  intros (Hlist & Hname & Hset & Hproc)%elem_of_new_files.
  rewrite Hfiles in *. rewrite Hlisting in Hlist.
  destruct (load_json_file (files w) p) as [|v vs] eqn:Hload; [done|exfalso].
  rewrite a1_set in Hset. apply not_elem_of_union in Hset as [Hold Hnew].
  rewrite elem_of_list_to_set in Hnew.
  assert (Hnot : p ∉ new_files cfg w a).
  { intros Hin. apply Hnew. unfold newly_processed, loaded.
    apply list_elem_of_filter. by rewrite Hload. }
  assert (Hwas : _is_file_processed (files w) a p = true).
  { apply not_false_is_true. intros Hf. apply Hnot. by apply elem_of_new_files. }
  apply is_file_processed_iff in Hwas as [?|Hhash]; [done|].
  assert (Hstill : _is_file_processed (files w) a1 p = true).
  { apply is_file_processed_iff. right. unfold old_hashes at 1. rewrite a1_summary.
    unfold s1. rewrite (merged_hashes_app cfg w a Hw Ha). unfold Py.values.
    rewrite map_app, elem_of_app. by left. }
  congruence.
Qed.

Lemma second_batch :
  collect w' a1 (new_files cfg w' a1)
  = {| all_video_summaries := previously_processed s1;
       processed_file_paths := [];
       new_file_hashes := [] |}.
Proof.
  unfold collect. rewrite loop_nothing_loaded by apply second_cycle_loads_nothing.
  by rewrite a1_summary.
Qed.

Lemma second_merge text' :
  same_bookkeeping s1 (merged cfg w' a1 (collect w' a1 (new_files cfg w' a1)) text').
Proof.
  rewrite second_batch. pose proof a1_ok as Hok. unfold agent_ok in Hok.
  pose proof (set_order_old cfg w' a1 Hw' a1_ok) as Hperm. unfold old_paths in Hperm.
  unfold same_bookkeeping, merged. simpl. rewrite a1_summary in *.
  destruct Hok as (_ & _ & Hnd & _). split_and!.
  - rewrite length_previously_processed; [done|]. unfold s1. simpl. lia.
  - unfold s1. simpl. lia.
  - by rewrite update_empty.
  - by rewrite app_nil_r, Hperm.
Qed.

Lemma second_set :
  self_processed_files (committed cfg w' a1 text) = self_processed_files a1.
Proof. unfold committed. simpl. rewrite second_batch. simpl. set_solver. Qed.

End second_cycle.

Lemma second_cycle_after cfg w w' a :
  world_ok w → world_ok w' → agent_ok a →
  listing w' = listing w → files w' = files w →
  returned (process_new_files cfg w a) = Some true →
  self_processed_files (after (process_new_files cfg w' (after (process_new_files cfg w a))))
  = self_processed_files (after (process_new_files cfg w a))
  ∧ (overall_summary (after (process_new_files cfg w' (after (process_new_files cfg w a))))
     = overall_summary (after (process_new_files cfg w a))
     ∨ ∃ s1 s2,
         overall_summary (after (process_new_files cfg w a)) = Some s1
         ∧ overall_summary (after (process_new_files cfg w' (after (process_new_files cfg w a))))
           = Some s2
         ∧ same_bookkeeping s1 s2)
  ∧ (write w = Written → write w' = Written →
     disk (after (process_new_files cfg w' (after (process_new_files cfg w a))))
     = disk (after (process_new_files cfg w a))
     ∨ ∃ s1 s2,
         disk (after (process_new_files cfg w a)) = Some (json_dump s1)
         ∧ disk (after (process_new_files cfg w' (after (process_new_files cfg w a))))
           = Some (json_dump s2)
         ∧ same_bookkeeping s1 s2).
Proof.
  intros Hw Hw' Ha Hl Hf Hret.
  destruct (process_new_files_cycle cfg w a) as [ |? Hnone|? ? Hnone| |text ? ? ? ?];
    simpl in *; try discriminate Hret.
  - (* nothing was new: nothing is new the second time *)
    destruct (process_new_files_cycle cfg w' a) as [ | | | |text' ? Hsome ? ?];
      simpl; try (split_and!; [done|by left|by left]).
    rewrite (new_files_same_directory cfg w w' a Hl Hf) in Hsome. done.
  - (* no text: no text the second time *)
    destruct (process_new_files_cycle cfg w' a) as [ | | | |text' ? ? Hsome ?];
      simpl; try (split_and!; [done|by left|by left]).
    rewrite (new_files_same_directory cfg w w' a Hl Hf) in Hsome.
    rewrite (collect_same_directory w w' a _ Hf) in Hsome. done.
  - (* the first cycle built a state *)
    destruct (process_new_files_cycle cfg w' (_save_summary w (committed cfg w a text)))
      as [ | | | |text' ? ? ? ?];
      simpl; try (split_and!; [done|by left|by left]).
    pose proof (second_merge cfg w w' a text Hw Hw' Ha Hl Hf text') as Hsame.
    pose proof (a1_summary cfg w w' a text Hw Hw' Ha Hl Hf) as Hs1.
    split_and!.
    + rewrite (proj2 (save_keeps_memory _ _)).
      unfold committed at 1. simpl.
      rewrite (second_batch cfg w w' a text Hw Hw' Ha Hl Hf). simpl. set_solver.
    + right. eexists _, _. split_and!; [exact Hs1| |exact Hsame].
      by rewrite overall_summary_save, overall_summary_committed.
    + intros Hwr Hwr'. right. eexists _, _. split_and!; [| |exact Hsame].
      * unfold _save_summary at 1. by rewrite overall_summary_committed, Hwr.
      * unfold _save_summary at 1. by rewrite overall_summary_committed, Hwr'.
Qed.

(** C10.  After a cycle that ran to its end, a second cycle over the same
    directory (same listing, same files) leaves the set of processed
    paths, the hash map, [total_files] and [total_videos] as they were, in
    memory and, the writes succeeding, in the output file: either nothing
    is rewritten, or the state written has the same bookkeeping. *)
Theorem C10_second_cycle_keeps_bookkeeping cfg ws w w' :
  Forall world_ok ws → world_ok w → world_ok w' →
  listing w' = listing w → files w' = files w →
  returned (process_new_files cfg w (run cfg ws fresh)) = Some true →
  self_processed_files (run cfg (ws ++ [w; w']) fresh)
  = self_processed_files (run cfg (ws ++ [w]) fresh)
  ∧ (overall_summary (run cfg (ws ++ [w; w']) fresh)
     = overall_summary (run cfg (ws ++ [w]) fresh)
     ∨ ∃ s1 s2,
         overall_summary (run cfg (ws ++ [w]) fresh) = Some s1
         ∧ overall_summary (run cfg (ws ++ [w; w']) fresh) = Some s2
         ∧ total_videos s1 = total_videos s2
         ∧ total_files s1 = total_files s2
         ∧ file_hashes s1 = file_hashes s2
         ∧ processed_files s1 ≡ₚ processed_files s2)
  ∧ (write w = Written → write w' = Written →
     disk (run cfg (ws ++ [w; w']) fresh) = disk (run cfg (ws ++ [w]) fresh)
     ∨ ∃ s1 s2,
         disk (run cfg (ws ++ [w]) fresh) = Some (json_dump s1)
         ∧ disk (run cfg (ws ++ [w; w']) fresh) = Some (json_dump s2)
         ∧ total_videos s1 = total_videos s2
         ∧ total_files s1 = total_files s2
         ∧ file_hashes s1 = file_hashes s2
         ∧ processed_files s1 ≡ₚ processed_files s2).
Proof.
  intros Hws Hw Hw' Hl Hf Hret. rewrite !run_app. simpl.
  exact (second_cycle_after cfg w w' _ Hw Hw' (run_ok cfg ws fresh Hws fresh_ok) Hl Hf Hret).
Qed.

Lemma C10_second_cycle_keeps_bookkeeping_witness :
  self_processed_files (run demo_cfg ([] ++ [serving dir_a_bad t0; serving dir_a_bad t1]) fresh)
  = self_processed_files (run demo_cfg ([] ++ [serving dir_a_bad t0]) fresh)
  ∧ (overall_summary (run demo_cfg ([] ++ [serving dir_a_bad t0; serving dir_a_bad t1]) fresh)
     = overall_summary (run demo_cfg ([] ++ [serving dir_a_bad t0]) fresh)
     ∨ ∃ s1 s2,
         overall_summary (run demo_cfg ([] ++ [serving dir_a_bad t0]) fresh) = Some s1
         ∧ overall_summary
             (run demo_cfg ([] ++ [serving dir_a_bad t0; serving dir_a_bad t1]) fresh)
           = Some s2
         ∧ total_videos s1 = total_videos s2
         ∧ total_files s1 = total_files s2
         ∧ file_hashes s1 = file_hashes s2
         ∧ processed_files s1 ≡ₚ processed_files s2)
  ∧ (write (serving dir_a_bad t0) = Written → write (serving dir_a_bad t1) = Written →
     disk (run demo_cfg ([] ++ [serving dir_a_bad t0; serving dir_a_bad t1]) fresh)
     = disk (run demo_cfg ([] ++ [serving dir_a_bad t0]) fresh)
     ∨ ∃ s1 s2,
         disk (run demo_cfg ([] ++ [serving dir_a_bad t0]) fresh) = Some (json_dump s1)
         ∧ disk (run demo_cfg ([] ++ [serving dir_a_bad t0; serving dir_a_bad t1]) fresh)
           = Some (json_dump s2)
         ∧ total_videos s1 = total_videos s2
         ∧ total_files s1 = total_files s2
         ∧ file_hashes s1 = file_hashes s2
         ∧ processed_files s1 ≡ₚ processed_files s2).
Proof.
  apply (C10_second_cycle_keeps_bookkeeping demo_cfg []
           (serving dir_a_bad t0) (serving dir_a_bad t1)).
  - constructor.
  - apply serving_ok, NoDup_dir_a_bad.
  - apply serving_ok, NoDup_dir_a_bad.
  - reflexivity.
  - reflexivity.
  - vm_compute. reflexivity.
Defined.

(** The second of these two cycles does rewrite the state: the malformed
    file is new again, and the description and the date change while the
    bookkeeping stays. *)
Example second_cycle_rewrites :
  length (objects (run demo_cfg [serving dir_a_bad t0; serving dir_a_bad t1] fresh)) = 2.
Proof. vm_compute. reflexivity. Qed.

(** ** Running the module: C4 *)

(** C4.  The claim that every operation of the agent can be reached fails
    on the source: running the module stops with a NameError at the return
    annotation of [load_json_file], before the class
    [ContinuousVideoAgent] is bound. *)
Theorem C4_module_raises_NameError :
  DefinitionTime.exec_module DefinitionTime.source = DefinitionTime.NameError "VideoSummaryf".
Proof. vm_compute. reflexivity. Qed.

(** With the name [extract_ai_summaries] uses in the same place, the module
    runs to its end and binds the class. *)
Lemma module_runs_with_VideoSummary :
  ∃ names, DefinitionTime.exec_module (DefinitionTime.continuous_agent "VideoSummary")
           = DefinitionTime.Bound names
           ∧ "ContinuousVideoAgent" ∈ names ∧ "main" ∈ names.
Proof.
  eexists. split_and!; [vm_compute; reflexivity| |];
    apply (bool_decide_unpack _); vm_compute; exact I.
Qed.

(** ** What load_json_file and extract_ai_summaries give *)

Lemma record_of_item_None (item : json) :
  match item with
  | JDict kw => VideoSummary_of kw
  | _ => Some (VideoSummary_ai (Some (Py.str item)))
  end = None
  ↔ ∃ kw, item = JDict kw ∧ VideoSummary_of kw = None.
Proof.
  destruct item; try (split; [discriminate|by intros (? & ? & ?)]).
  split; [eauto|]. by intros (kw & [= <-] & ?).
Qed.

(** X1.  A list document gives one record per item, or nothing at all: a
    single object that fails validation (say a number where a title is
    expected) discards every record of the file, and only that can. *)
Theorem list_document_all_or_nothing (items : list json) :
  (summaries_of_document (JList items) = None
   ↔ ∃ kw, JDict kw ∈ items ∧ VideoSummary_of kw = None)
  ∧ ∀ vs, summaries_of_document (JList items) = Some vs → length vs = length items.
Proof.
  simpl. split.
  - rewrite mapM_None, Exists_exists. split.
    + intros (item & Hin & (kw & -> & Hkw)%record_of_item_None). eauto.
    + intros (kw & Hin & Hkw). exists (JDict kw). by split.
  - intros vs Hvs%mapM_Some_1. symmetry. by eapply Forall2_length.
Qed.

Lemma top_3_result_text (video : json) (v : VideoSummary) :
  top_3_result video = Some (Some v) →
  ∃ s, ai_summary v = Some s ∧ s ≠ "" ∧ s ≠ "Analysis could not be parsed".
Proof.
  unfold top_3_result. destruct (english_summary video) as [english|]; [simpl|done].
  destruct (Py.truthy english) eqn:Htruthy; [simpl|done].
  destruct (Py.is_str _ english) eqn:Hsentinel; [done|simpl].
  destruct video as [| | | | | |entries]; try done.
  intros Hv. simpl in Hv.
  destruct (Py.get entries "id"); simpl in Hv; try discriminate Hv;
    destruct (Py.get entries "title"); simpl in Hv; try discriminate Hv;
    destruct english as [| | | |text| |]; simpl in *; try discriminate;
    injection Hv as <-; exists text; simpl;
    (split_and!; [done|intros ->; done|intros ->; done]).
Qed.

Lemma extract_with_text (vs : list VideoSummary) :
  Forall (λ v, nonempty (ai_summary v) = true) vs →
  extract_ai_summaries vs = map (λ v, default "" (ai_summary v)) vs.
Proof.
  induction 1 as [|v vs Hv _ IH]; simpl; [done|]. by rewrite Hv, IH.
Qed.

(** X2.  Every record kept from a "top_3_results" document carries a
    non-empty summary other than the sentence "Analysis could not be
    parsed", so [extract_ai_summaries] yields exactly one text per kept
    record. *)
Theorem top_3_records_all_have_text entries results vs :
  Py.lookup "top_3_results" entries = Some results →
  summaries_of_document (JDict entries) = Some vs →
  Forall (λ v, ∃ s, ai_summary v = Some s ∧ s ≠ "" ∧ s ≠ "Analysis could not be parsed") vs
  ∧ extract_ai_summaries vs = map (λ v, default "" (ai_summary v)) vs.
Proof.
  intros Hresults. simpl. rewrite Hresults.
  destruct (Py.iter results) as [videos|]; [simpl|done].
  destruct (mapM top_3_result videos) as [kept|] eqn:Hkept; [simpl|done].
  intros [= <-].
  assert (Hall : Forall (λ v, ∃ s, ai_summary v = Some s ∧ s ≠ ""
                                   ∧ s ≠ "Analysis could not be parsed") (omap id kept)).
  { apply Forall_forall. intros v (k & Hk & Hid)%list_elem_of_omap. simpl in Hid. subst k.
    apply mapM_Some_1 in Hkept.
    destruct (proj1 (list_elem_of_lookup _ _) Hk) as [i Hi].
    destruct (Forall2_lookup_r _ _ _ _ _ Hkept Hi) as (video & _ & Hvideo).
    by eapply top_3_result_text. }
  split; [done|]. apply extract_with_text.
  eapply Forall_impl; [exact Hall|]. intros v (s & -> & Hs & _). by destruct s.
Qed.

Lemma top_3_records_all_have_text_witness :
  Forall (λ v, ∃ s, ai_summary v = Some s ∧ s ≠ "" ∧ s ≠ "Analysis could not be parsed")
         [{| video_id := Some "v1"; title := None; description := None;
             ai_summary := Some "hello"; duration := Some "4 minutes";
             metadata := Some [("uploader", JNull); ("view_count", JNull)] |}]
  ∧ extract_ai_summaries
      [{| video_id := Some "v1"; title := None; description := None;
          ai_summary := Some "hello"; duration := Some "4 minutes";
          metadata := Some [("uploader", JNull); ("view_count", JNull)] |}]
    = map (λ v, default "" (ai_summary v))
        [{| video_id := Some "v1"; title := None; description := None;
            ai_summary := Some "hello"; duration := Some "4 minutes";
            metadata := Some [("uploader", JNull); ("view_count", JNull)] |}].
Proof.
  apply (top_3_records_all_have_text
           [("top_3_results",
             JList [JDict [("id", JStr "v1");
                           ("multilingual_summaries", JDict [("English", JStr "hello")]);
                           ("duration_minutes", JInt 4)];
                    JDict [("analysis",
                            JDict [("summary", JStr "Analysis could not be parsed")])]])]
           (JList [JDict [("id", JStr "v1");
                          ("multilingual_summaries", JDict [("English", JStr "hello")]);
                          ("duration_minutes", JInt 4)];
                   JDict [("analysis",
                           JDict [("summary", JStr "Analysis could not be parsed")])]])).
  - reflexivity.
  - vm_compute. reflexivity.
Defined.

Lemma extract_app (vs ws : list VideoSummary) :
  extract_ai_summaries (vs ++ ws) = extract_ai_summaries vs ++ extract_ai_summaries ws.
Proof.
  induction vs as [|v vs IH]; simpl; [done|].
  destruct (nonempty (ai_summary v)); [by rewrite IH|].
  destruct (nonempty (description v)); [by rewrite IH|].
  destruct (nonempty (title v)); by rewrite IH.
Qed.

Lemma nonempty_default (s : option string) : nonempty s = true → default "" s ≠ "".
Proof. by destruct s as [[|c s]|]. Qed.

(** X3.  [extract_ai_summaries] never yields an empty text and at most
    one text per record; it yields nothing exactly when no record has a
    non-empty ai_summary, description or title. *)
Theorem extract_ai_summaries_texts (vs : list VideoSummary) :
  (∀ t, t ∈ extract_ai_summaries vs → t ≠ "")
  ∧ (length (extract_ai_summaries vs) ≤ length vs)%nat
  ∧ (extract_ai_summaries vs = []
     ↔ Forall (λ v, nonempty (ai_summary v) = false
                    ∧ nonempty (description v) = false
                    ∧ nonempty (title v) = false) vs).
Proof.
  induction vs as [|v vs (IHt & IHl & IHe)]; simpl.
  { split_and!; [by intros t ?%elem_of_nil|lia|done]. }
  destruct (nonempty (ai_summary v)) eqn:Ha;
    [|destruct (nonempty (description v)) eqn:Hd;
      [|destruct (nonempty (title v)) eqn:Ht]].
  - split_and!.
    + intros t [->|Hin]%elem_of_cons; [by apply nonempty_default|auto].
    + simpl. lia.
    + split; [done|]. intros Hall%Forall_cons_1. destruct Hall as [(? & _) _]. congruence.
  - split_and!.
    + intros t [->|Hin]%elem_of_cons; [by apply nonempty_default|auto].
    + simpl. lia.
    + split; [done|]. intros Hall%Forall_cons_1. destruct Hall as [(_ & ? & _) _]. congruence.
  - split_and!.
    + intros t [->|Hin]%elem_of_cons; [done|auto].
    + simpl. lia.
    + split; [done|]. intros Hall%Forall_cons_1. destruct Hall as [(_ & _ & ?) _]. congruence.
  - split_and!; [done|lia|]. rewrite IHe, Forall_cons. naive_solver.
Qed.

(** ** The two requests of OllamaClient *)

(** X4.  Whatever the server replies, a detail level returned by
    [analyze_content_complexity] is one of the four known levels, so the
    token budget of [generate_summary] is always read from
    [max_tokens_map] and never the default of its [get]. *)
Theorem analysis_level_has_token_budget prints reply level :
  analyze_content_complexity prints reply = Some level →
  level ∈ detail_levels ∧ is_Some (Py.lookup level max_tokens_map).
Proof.
  intros Hlevel.
  assert (Hin : level ∈ detail_levels).
  { unfold analyze_content_complexity in Hlevel.
    assert (Hstd : "STANDARD" ∈ detail_levels) by (unfold detail_levels; set_solver).
    destruct reply as [|[| | | | | |result]]; try done; [by injection Hlevel as <-|].
    destruct (default _ _) as [| | | |raw| |]; try done.
    destruct (List.find _ detail_levels) as [found|] eqn:Hfind.
    - injection Hlevel as <-.
      apply find_first in Hfind as (before & rest & -> & _). set_solver.
    - destruct (prints _); [|done]. by injection Hlevel as <-. }
  split; [done|]. unfold detail_levels in Hin.
  repeat (apply elem_of_cons in Hin as [->|Hin]; [by eexists|]).
  by apply elem_of_nil in Hin.
Qed.

Lemma analysis_level_has_token_budget_witness :
  "BRIEF" ∈ detail_levels ∧ is_Some (Py.lookup "BRIEF" max_tokens_map).
Proof.
  apply (analysis_level_has_token_budget every_line_prints (reply "brief, I think") "BRIEF").
  vm_compute. reflexivity.
Defined.

Lemma analyze_raises_iff prints reply :
  analyze_content_complexity prints reply = None
  ↔ ∃ v, reply = Body v
         ∧ ((∀ d, v ≠ JDict d)
            ∨ (∃ d x, v = JDict d ∧ Py.lookup "response" d = Some x ∧ ∀ s, x ≠ JStr s)
            ∨ (∃ d raw, v = JDict d ∧ Py.lookup "response" d = Some (JStr raw)
                 ∧ (∀ level, level ∈ detail_levels →
                             PyStr.contains level (PyStr.upper raw) = false)
                 ∧ prints (unclear_warning raw) = false)).
Proof.
  unfold analyze_content_complexity. split.
  - destruct reply as [|v]; [done|]. intros Hnone. exists v. split; [done|].
    destruct v as [| | | | | |d]; try (by left).
    right. destruct (Py.lookup "response" d) as [x|] eqn:Hx; [|done].
    cbn [from_option id] in Hnone.
    destruct x as [| | | |raw| |]; try (left; exists d; eexists; by split_and!).
    right. exists d, raw. split_and!; [done..| |].
    + destruct (List.find _ detail_levels) eqn:Hfind; [done|].
      by apply find_none with (l := detail_levels).
    + destruct (List.find _ detail_levels); [done|]. by destruct (prints _).
  - intros (v & -> & [Hv|[(d & x & -> & Hx & Hstr)|(d & raw & -> & Hx & Hnone & Hprints)]]).
    + destruct v; try done. by destruct (Hv entries).
    + rewrite Hx. simpl. destruct x; try done. by destruct (Hstr s).
    + rewrite Hx. cbn [from_option id].
      destruct (List.find _ detail_levels) as [level|] eqn:Hfind.
      * apply find_first in Hfind as (before & rest & Hlevels & Hlevel & _).
        rewrite Hnone in Hlevel; [done|]. rewrite Hlevels. set_solver.
      * by rewrite Hprints.
Qed.

(** X5.  [generate_summary] lets an exception escape in these cases only:
    the analysis step does, or the body of the generation reply is no
    object.  The analysis step does when its body is no object, when the
    response in it is no string, or when that string holds no keyword and
    the warning that quotes it does not print.  Two failed requests give
    the fallback sentence. *)
Theorem generate_summary_raises_iff prints analysis generation :
  (generate_summary prints analysis generation = None
   ↔ analyze_content_complexity prints analysis = None
     ∨ ∃ v, generation = Body v ∧ ∀ d, v ≠ JDict d)
  ∧ (analyze_content_complexity prints analysis = None
     ↔ ∃ v, analysis = Body v
            ∧ ((∀ d, v ≠ JDict d)
               ∨ (∃ d x, v = JDict d ∧ Py.lookup "response" d = Some x ∧ ∀ s, x ≠ JStr s)
               ∨ (∃ d raw, v = JDict d ∧ Py.lookup "response" d = Some (JStr raw)
                    ∧ (∀ level, level ∈ detail_levels →
                                PyStr.contains level (PyStr.upper raw) = false)
                    ∧ prints (unclear_warning raw) = false)))
  ∧ generate_summary prints RequestException RequestException
    = Some (JStr connection_issues).
Proof.
  split_and!; [|apply analyze_raises_iff|done].
  unfold generate_summary.
  destruct (analyze_content_complexity prints analysis) as [level|]; simpl.
  - split.
    + destruct generation as [|v]; [done|]. intros Hnone. right. exists v. split; [done|].
      intros d ->. done.
    + intros [?|(v & -> & Hv)]; [done|]. destruct v; try done. by destruct (Hv entries).
  - split; [by left|done].
Qed.

(** ** The sample of the analysis prompt *)

Lemma string_length_app (s t : string) :
  String.length (s ++ t)%string = (String.length s + String.length t)%nat.
Proof.
  induction s as [|c s IH]; [done|].
  change (S (String.length (s ++ t)%string) = S (String.length s + String.length t)).
  by rewrite IH.
Qed.

Lemma length_substring_le (n : nat) (s : string) :
  (String.length (String.substring 0 n s) ≤ n)%nat.
Proof.
  revert n. induction s as [|c s IH]; intros [|n]; simpl; try lia.
  specialize (IH n). lia.
Qed.

Lemma length_clip (summary : string) : (String.length (clip summary) ≤ 803)%nat.
Proof.
  unfold clip. destruct (Nat.ltb_spec 800 (String.length summary)) as [Hlong|Hshort].
  - rewrite string_length_app. pose proof (length_substring_le 800 summary). simpl. lia.
  - lia.
Qed.

Lemma length_sample_entry (i : nat) (summary : string) :
  (i < 3)%nat → (String.length (sample_entry i summary) ≤ 812)%nat.
Proof.
  intros Hi. pose proof (length_clip summary) as Hclip.
  assert (Hhead : ∃ digit, pretty (i + 1)%nat = String digit "").
  { destruct i as [|[|[|i]]]; [by eexists..|lia]. }
  destruct Hhead as [digit Hdigit]. unfold sample_entry. rewrite Hdigit.
  rewrite !string_length_app. simpl. lia.
Qed.

Lemma take_at_most_three {A} (l : list A) : take (min 3 (length l)) l = take 3 l.
Proof.
  destruct (decide (length l ≤ 3)%nat) as [Hle|Hgt].
  - rewrite Nat.min_r by done. by rewrite !take_ge by lia.
  - by rewrite Nat.min_l by lia.
Qed.

(** X6.  The sample sent for the complexity analysis is built from the
    first three summaries only: the rest of the batch has no part in
    it. *)
Theorem content_sample_first_three (video_summaries : list string) :
  content_sample video_summaries = content_sample (take 3 video_summaries).
Proof.
  unfold content_sample. rewrite !take_at_most_three. by rewrite take_take, Nat.min_id.
Qed.

(** X7.  However many and however long the summaries, the sample is at
    most 2440 characters long: three entries of at most 812 characters
    and two separators. *)
Theorem content_sample_bounded (video_summaries : list string) :
  (String.length (content_sample video_summaries) ≤ 2440)%nat.
Proof.
  unfold content_sample. rewrite take_at_most_three.
  assert (Hlen : (length (take 3 video_summaries) ≤ 3)%nat) by (rewrite length_take; lia).
  destruct (take 3 video_summaries) as [|a [|b [|c [|d rest]]]]; simpl in Hlen; [| | | |lia].
  - simpl. lia.
  - pose proof (length_sample_entry 0 a ltac:(lia)).
    cbn [imap String.concat]. lia.
  - pose proof (length_sample_entry 0 a ltac:(lia)) as Ha.
    pose proof (length_sample_entry 1 b ltac:(lia)) as Hb.
    cbn [imap String.concat]. unfold compose.
    revert Ha Hb. generalize (sample_entry 0 a) (sample_entry 1 b). intros ea eb Ha Hb.
    rewrite !string_length_app. simpl String.length. lia.
  - pose proof (length_sample_entry 0 a ltac:(lia)) as Ha.
    pose proof (length_sample_entry 1 b ltac:(lia)) as Hb.
    pose proof (length_sample_entry 2 c ltac:(lia)) as Hc.
    cbn [imap String.concat]. unfold compose.
    revert Ha Hb Hc.
    generalize (sample_entry 0 a) (sample_entry 1 b) (sample_entry 2 c).
    intros ea eb ec Ha Hb Hc.
    rewrite !string_length_app. simpl String.length. lia.
Qed.

Example content_sample_two :
  content_sample ["first"; "second"]
  = ("Video 1:" ++ newline ++ "first" ++ newline ++ newline
     ++ "Video 2:" ++ newline ++ "second")%string.
Proof. vm_compute. reflexivity. Qed.

(** ** Hashes and the files they stand for *)

Lemma length_le_bytes (n : nat) (x : Z) : length (MD5.le_bytes n x) = n.
Proof. revert x. induction n as [|n IH]; intros x; simpl; [done|]. by rewrite IH. Qed.

Lemma length_hex (bs : list Z) : String.length (MD5.hex bs) = (2 * length bs)%nat.
Proof. induction bs as [|b bs IH]; simpl; [done|]. rewrite IH. lia. Qed.

Lemma length_hexdigest (msg : string) : String.length (MD5.hexdigest msg) = 32%nat.
Proof.
  unfold MD5.hexdigest, MD5.digest.
  destruct (fold_left _ _ _) as [[[a b] c] d].
  by rewrite length_hex, !length_app, !length_le_bytes.
Qed.

(** X8.  [_get_file_hash] is the empty string exactly for a file that
    cannot be read; for a readable file it is always 32 characters long,
    so the value for a failed read is never the hash of any content. *)
Theorem get_file_hash_tells_unreadable (fs : gmap string file) (file_path : string) :
  (_get_file_hash fs file_path = "" ↔ fs !! file_path = None)
  ∧ String.length (_get_file_hash fs file_path)
    = match fs !! file_path with
      | Some _ => 32%nat
      | None => 0%nat
      end.
Proof.
  unfold _get_file_hash. destruct (fs !! file_path) as [f|].
  - split; [|apply length_hexdigest].
    split; [|done]. intros Hempty. by destruct (hexdigest_nonempty (content f)).
  - done.
Qed.

Lemma set_after cfg w a p :
  p ∈ self_processed_files a → p ∈ self_processed_files (after (process_new_files cfg w a)).
Proof.
  intros Hp. destruct (process_new_files_cycle cfg w a); simpl; try done.
  rewrite (proj2 (save_keeps_memory _ _)). simpl. set_solver.
Qed.

Lemma hashes_after cfg w a h :
  world_ok w → agent_ok a →
  h ∈ Py.values (old_hashes a) →
  h ∈ Py.values (old_hashes (after (process_new_files cfg w a))).
Proof.
  intros Hw Ha Hh. destruct (process_new_files_cycle cfg w a); simpl; try done.
  unfold old_hashes at 1. rewrite overall_summary_save, overall_summary_committed.
  rewrite (merged_hashes_app cfg w a Hw Ha). unfold Py.values.
  rewrite map_app, elem_of_app. by left.
Qed.

Lemma known_after cfg w a fs p :
  world_ok w → agent_ok a →
  _is_file_processed fs a p = true →
  _is_file_processed fs (after (process_new_files cfg w a)) p = true.
Proof.
  intros Hw Ha [Hset|Hhash]%is_file_processed_iff; apply is_file_processed_iff.
  - left. by apply set_after.
  - right. by apply hashes_after.
Qed.

Lemma known_after_run cfg ws a fs p :
  Forall world_ok ws → agent_ok a →
  _is_file_processed fs a p = true → _is_file_processed fs (run cfg ws a) p = true.
Proof.
  intros Hws. revert a. induction Hws as [|w ws Hw _ IH]; intros a Ha Hp; [done|].
  simpl. apply IH; [by apply process_new_files_ok|by apply known_after].
Qed.

(** X9.  A file the agent reports as processed is reported as processed
    after any further cycles: neither the processed set nor the recorded
    hash values ever lose an element. *)
Theorem processed_stays_processed cfg ws ws' fs p :
  Forall world_ok ws → Forall world_ok ws' →
  _is_file_processed fs (run cfg ws fresh) p = true →
  _is_file_processed fs (run cfg (ws ++ ws') fresh) p = true.
Proof.
  intros Hws Hws' Hp. rewrite run_app.
  apply known_after_run; [done| |done]. by apply run_ok.
Qed.

Lemma processed_stays_processed_witness :
  _is_file_processed (files (serving dir_a_bad t1))
    (run demo_cfg ([serving dir_a t0] ++ [serving dir_a_bad t1]) fresh)
    "video_summaries/a.json" = true.
Proof.
  apply (processed_stays_processed demo_cfg [serving dir_a t0] [serving dir_a_bad t1]).
  - apply Forall_singleton, serving_ok, NoDup_dir_a.
  - apply Forall_singleton, serving_ok, NoDup_dir_a_bad.
  - vm_compute. reflexivity.
Defined.

Lemma marked_hash cfg w a p :
  world_ok w → agent_ok a →
  p ∉ self_processed_files a →
  p ∈ self_processed_files (after (process_new_files cfg w a)) →
  _get_file_hash (files w) p ∈ Py.values (old_hashes (after (process_new_files cfg w a))).
Proof.
  intros Hw Ha Hout Hin.
  destruct (process_new_files_cycle cfg w a); simpl in *; try done.
  rewrite (proj2 (save_keeps_memory _ _)) in Hin. simpl in Hin.
  rewrite collect_paths in Hin. fold (newly_processed cfg w a) in Hin.
  apply elem_of_union in Hin as [?|Hnew%elem_of_list_to_set]; [done|].
  unfold old_hashes. rewrite overall_summary_save, overall_summary_committed.
  rewrite (merged_hashes_app cfg w a Hw Ha). unfold Py.values.
  rewrite map_app, elem_of_app. right.
  apply new_hash_keys in Hnew. unfold Py.keys in Hnew.
  apply list_elem_of_In, in_map_iff in Hnew as ([k v] & Hk & Hkv). simpl in Hk. subst k.
  apply list_elem_of_In in Hkv.
  rewrite <- (new_hash_values cfg w a p v Hkv).
  apply list_elem_of_In, in_map_iff. exists (p, v). split; [done|]. by apply list_elem_of_In.
Qed.

(** X10.  Once a cycle has marked a file as processed, no later cycle
    takes a file with the same bytes for new, whatever its path: a
    renamed or copied file is not processed a second time. *)
Theorem same_bytes_never_new cfg ws w ws' w' p f p' f' :
  Forall world_ok ws → world_ok w → Forall world_ok ws' →
  p ∉ self_processed_files (run cfg ws fresh) →
  p ∈ self_processed_files (run cfg (ws ++ [w]) fresh) →
  files w !! p = Some f →
  files w' !! p' = Some f' →
  content f' = content f →
  p' ∉ new_files cfg w' (run cfg (ws ++ [w] ++ ws') fresh).
Proof.
  intros Hws Hw Hws' Hout Hin Hf Hf' Hsame.
  rewrite app_assoc, run_app. rewrite run_snoc in *.
  pose proof (run_ok cfg ws fresh Hws fresh_ok) as Ha.
  pose proof (marked_hash cfg w _ p Hw Ha Hout Hin) as Hhash.
  intros (_ & _ & _ & Hnot)%elem_of_new_files.
  assert (Hknown : _is_file_processed (files w')
                     (after (process_new_files cfg w (run cfg ws fresh))) p' = true).
  { apply is_file_processed_iff. right.
    unfold _get_file_hash in *. rewrite Hf in Hhash. by rewrite Hf', Hsame. }
  apply (known_after_run cfg ws' _ _ _ Hws' (process_new_files_ok cfg w _ Hw Ha)) in Hknown.
  congruence.
Qed.

Lemma NoDup_dir_a_copy : NoDup (map fst dir_a_copy).
Proof. apply (bool_decide_unpack _). vm_compute. exact I. Defined.

Lemma same_bytes_never_new_witness :
  "video_summaries/copy_of_a.json"
  ∉ new_files demo_cfg (serving dir_a_copy t1)
      (run demo_cfg ([] ++ [serving dir_a t0] ++ []) fresh).
Proof.
  apply (same_bytes_never_new demo_cfg [] (serving dir_a t0) [] (serving dir_a_copy t1)
           "video_summaries/a.json" two_records
           "video_summaries/copy_of_a.json" two_records).
  - constructor.
  - apply serving_ok, NoDup_dir_a.
  - constructor.
  - apply (bool_decide_unpack _). vm_compute. exact I.
  - apply (bool_decide_unpack _). vm_compute. exact I.
  - vm_compute. reflexivity.
  - vm_compute. reflexivity.
  - reflexivity.
Defined.

Lemma unmarked_after cfg w a p :
  p ∉ self_processed_files a → load_json_file (files w) p = [] →
  p ∉ self_processed_files (after (process_new_files cfg w a)).
Proof.
  intros Hout Hload. destruct (process_new_files_cycle cfg w a); simpl; try done.
  rewrite (proj2 (save_keeps_memory _ _)). simpl. rewrite collect_paths.
  fold (newly_processed cfg w a).
  intros [?|[_ Hnew]%elem_of_list_to_set%newly_processed_new]%elem_of_union; done.
Qed.

(** X11.  A file that yields no record (missing, unreadable, malformed, or
    an empty list) is never added to the processed set, however many
    cycles run. *)
Theorem recordless_file_never_marked cfg ws a p :
  p ∉ self_processed_files a →
  Forall (λ w, load_json_file (files w) p = []) ws →
  p ∉ self_processed_files (run cfg ws a).
Proof.
  intros Hout Hws. revert a Hout. induction Hws as [|w ws Hw _ IH]; intros a Hout; [done|].
  simpl. apply IH. by apply unmarked_after.
Qed.

Lemma recordless_file_never_marked_witness :
  "video_summaries/bad.json"
  ∉ self_processed_files
      (run demo_cfg [serving dir_a_bad t0; serving dir_a_bad t1] fresh).
Proof.
  apply (recordless_file_never_marked demo_cfg [serving dir_a_bad t0; serving dir_a_bad t1]
           fresh "video_summaries/bad.json").
  - apply (bool_decide_unpack _). vm_compute. exact I.
  - repeat constructor.
Defined.

(** ** What a cycle leaves behind *)

(** X12.  [process_new_files] returns False exactly when the server is not
    reachable; and whenever it does not return True, because of that or
    because an exception leaves it, the agent is exactly as before and
    nothing was saved. *)
Theorem failed_cycle_changes_nothing cfg w a :
  (returned (process_new_files cfg w a) = Some false ↔ ollama_up w = false)
  ∧ (returned (process_new_files cfg w a) ≠ Some true →
     after (process_new_files cfg w a) = a
     ∧ SaveSummary ∉ calls (process_new_files cfg w a)).
Proof.
  destruct (process_new_files_cycle cfg w a) as [Hup|Hup ?|Hup ? ?|Hup ? ? ?|text Hup ? ? ?];
    simpl; (split; [split; [try done|intros Hdown; congruence]|]); try done.
  - intros _. split; [done|]. apply not_elem_of_nil.
  - intros _. split; [done|]. set_solver.
Qed.

Lemma objects_nonneg_after cfg w a :
  Forall (λ s, (0 ≤ total_videos s)%Z) (objects a) →
  Forall (λ s, (0 ≤ total_videos s)%Z) (objects (after (process_new_files cfg w a))).
Proof.
  intros Hobjs. destruct (objects_after cfg w a) as [->|(text & -> & _)]; [done|].
  apply Forall_app. split; [done|]. apply Forall_singleton. simpl. lia.
Qed.

Lemma run_objects_nonneg cfg ws a :
  Forall (λ s, (0 ≤ total_videos s)%Z) (objects a) →
  Forall (λ s, (0 ≤ total_videos s)%Z) (objects (run cfg ws a)).
Proof.
  revert a. induction ws as [|w ws IH]; intros a Ha; [done|].
  simpl. by apply IH, objects_nonneg_after.
Qed.

Lemma overall_summary_in_objects a s : overall_summary a = Some s → s ∈ objects a.
Proof.
  unfold overall_summary. intros Hlast.
  destruct (objects a) as [|s0 l] using rev_ind; [done|].
  rewrite last_snoc in Hlast. injection Hlast as ->. set_solver.
Qed.

(** The number of videos counted so far: zero when there is no summary. *)
Lemma reached_total_videos_nonneg cfg ws s :
  overall_summary (run cfg ws fresh) = Some s → (0 ≤ total_videos s)%Z.
Proof.
  intros Hs%overall_summary_in_objects.
  pose proof (run_objects_nonneg cfg ws fresh (Forall_nil_2 _)) as Hall.
  rewrite Forall_forall in Hall. by apply Hall.
Qed.

(** X13.  When a cycle builds a new state, its [total_videos] is the
    previous [total_videos] (zero when there was no state) plus the number
    of texts extracted from the new files of this cycle: every text is
    counted once, and the count never goes down. *)
Theorem total_videos_adds_new_texts cfg ws w s' :
  overall_summary (after (process_new_files cfg w (run cfg ws fresh))) = Some s' →
  objects (after (process_new_files cfg w (run cfg ws fresh))) ≠ objects (run cfg ws fresh) →
  total_videos s'
  = (match overall_summary (run cfg ws fresh) with
     | Some s => total_videos s
     | None => 0
     end
     + Z.of_nat (length (concat (map (λ p, extract_ai_summaries
                                             (load_json_file (files w) p))
                                     (new_files cfg w (run cfg ws fresh))))))%Z.
Proof.
  intros Hs' Hnew.
  destruct (objects_after cfg w (run cfg ws fresh)) as [?|(text & _ & Hafter & _)]; [done|].
  rewrite Hafter, overall_summary_save, overall_summary_committed in Hs'.
  injection Hs' as <-. simpl. rewrite collect_texts, length_app, Nat2Z.inj_add.
  destruct (overall_summary (run cfg ws fresh)) as [s|] eqn:Hs; [|done].
  rewrite length_previously_processed; [done|]. by eapply reached_total_videos_nonneg.
Qed.

Lemma total_videos_adds_new_texts_witness :
  total_videos second_summary
  = (match overall_summary (run demo_cfg [serving dir_b_a t0] fresh) with
     | Some s => total_videos s
     | None => 0
     end
     + Z.of_nat (length (concat (map (λ p, extract_ai_summaries
                                             (load_json_file (files (serving dir_b_a_c t1)) p))
                                     (new_files demo_cfg (serving dir_b_a_c t1)
                                        (run demo_cfg [serving dir_b_a t0] fresh))))))%Z.
Proof.
  apply (total_videos_adds_new_texts demo_cfg [serving dir_b_a t0] (serving dir_b_a_c t1)
           second_summary).
  - vm_compute. reflexivity.
  - vm_compute. intros H. discriminate H.
Defined.

Lemma paths_hashed_after cfg w a :
  world_ok w → agent_ok a →
  (∀ p, p ∈ old_paths a → p ∈ Py.keys (old_hashes a)) →
  ∀ p, p ∈ old_paths (after (process_new_files cfg w a)) →
       p ∈ Py.keys (old_hashes (after (process_new_files cfg w a))).
Proof.
  intros Hw Ha Hold p.
  destruct (process_new_files_cycle cfg w a); simpl; try apply Hold.
  unfold old_paths, old_hashes. rewrite overall_summary_save, overall_summary_committed.
  rewrite (merged_hashes cfg w a Hw Ha), elem_of_keys_update. simpl.
  rewrite collect_paths. fold (newly_processed cfg w a).
  rewrite elem_of_app, (set_order_old cfg w a Hw Ha).
  intros [Hp|Hp]; [left; by apply Hold|right; by apply new_hash_keys].
Qed.

Lemma run_paths_hashed cfg ws a :
  Forall world_ok ws → agent_ok a →
  (∀ p, p ∈ old_paths a → p ∈ Py.keys (old_hashes a)) →
  ∀ p, p ∈ old_paths (run cfg ws a) → p ∈ Py.keys (old_hashes (run cfg ws a)).
Proof.
  intros Hws. revert a. induction Hws as [|w ws Hw _ IH]; intros a Ha Hold; [done|].
  simpl. apply IH; [by apply process_new_files_ok|by apply paths_hashed_after].
Qed.

(** X14.  In every state reached from the empty agent, the list of
    processed paths has no duplicate and holds exactly the paths of the
    processed set, and the hash map has exactly one entry per processed
    path: as many hashes as [total_files]. *)
Theorem paths_set_and_hashes_agree cfg ws s :
  Forall world_ok ws →
  overall_summary (run cfg ws fresh) = Some s →
  NoDup (processed_files s)
  ∧ (∀ p, p ∈ processed_files s ↔ p ∈ self_processed_files (run cfg ws fresh))
  ∧ NoDup (Py.keys (file_hashes s))
  ∧ (∀ p, p ∈ processed_files s ↔ p ∈ Py.keys (file_hashes s))
  ∧ Z.of_nat (length (file_hashes s)) = total_files s.
Proof.
  intros Hws Hs.
  pose proof (run_ok cfg ws fresh Hws fresh_ok) as Hok.
  pose proof (run_paths_hashed cfg ws fresh Hws fresh_ok) as Hhashed.
  unfold agent_ok, old_paths, old_hashes in *. rewrite Hs in *.
  destruct Hok as (Hnd & Hset & Hndk & _ & Hlen & Hkeys).
  assert (Hiff : ∀ p, p ∈ processed_files s ↔ p ∈ Py.keys (file_hashes s)).
  { intros p. split; [|apply Hkeys]. apply Hhashed. intros q Hq. by apply elem_of_nil in Hq. }
  split_and!; [done..|].
  rewrite <- Hlen. f_equal.
  rewrite <- (length_map fst (file_hashes s)). fold (Py.keys (file_hashes s)).
  apply Permutation_length, NoDup_Permutation; [done|done|]. intros p. by rewrite Hiff.
Qed.

Lemma paths_set_and_hashes_agree_witness :
  NoDup (processed_files second_summary)
  ∧ (∀ p, p ∈ processed_files second_summary
          ↔ p ∈ self_processed_files
                  (run demo_cfg [serving dir_b_a t0; serving dir_b_a_c t1] fresh))
  ∧ NoDup (Py.keys (file_hashes second_summary))
  ∧ (∀ p, p ∈ processed_files second_summary ↔ p ∈ Py.keys (file_hashes second_summary))
  ∧ Z.of_nat (length (file_hashes second_summary)) = total_files second_summary.
Proof.
  apply (paths_set_and_hashes_agree demo_cfg [serving dir_b_a t0; serving dir_b_a_c t1]
           second_summary).
  - repeat apply Forall_cons_2; [apply serving_ok, NoDup_dir_b_a
                                |apply serving_ok, NoDup_dir_b_a_c|constructor].
  - vm_compute. reflexivity.
Defined.

Lemma mirror_after cfg w a :
  write w = Written →
  disk a = json_dump <$> overall_summary a →
  disk (after (process_new_files cfg w a))
  = json_dump <$> overall_summary (after (process_new_files cfg w a)).
Proof.
  intros Hwrite Ha. destruct (process_new_files_cycle cfg w a); simpl; try done.
  rewrite overall_summary_save. unfold _save_summary.
  by rewrite overall_summary_committed, Hwrite.
Qed.

(** X15.  As long as every write succeeds, the output file holds exactly
    the serialization of the summary in memory after every cycle (and
    does not exist while there is none). *)
Theorem file_mirrors_state cfg ws :
  Forall (λ w, write w = Written) ws →
  disk (run cfg ws fresh) = json_dump <$> overall_summary (run cfg ws fresh).
Proof.
  intros Hws.
  assert (Hgen : ∀ a, disk a = json_dump <$> overall_summary a →
                      disk (run cfg ws a) = json_dump <$> overall_summary (run cfg ws a)).
  { induction Hws as [|w ws Hw _ IH]; intros a Ha; [done|].
    simpl. by apply IH, mirror_after. }
  by apply Hgen.
Qed.

Lemma file_mirrors_state_witness :
  disk (run demo_cfg [serving dir_a t0; failing dir_a_bad t1] fresh)
  = json_dump <$> overall_summary (run demo_cfg [serving dir_a t0; failing dir_a_bad t1] fresh).
Proof.
  apply (file_mirrors_state demo_cfg [serving dir_a t0; failing dir_a_bad t1]).
  repeat constructor.
Defined.

(** ** What the agent displays *)





(** ** start and stop *)

Lemma with_self_same (r : runner) : with_self r (self r) = r.
Proof. by destruct r. Qed.

Lemma monitor_stopped cfg turns r :
  running r = false → monitor cfg turns r = (ShutDown, stop r).
Proof. intros Hr. destruct turns; simpl; by rewrite Hr. Qed.

Lemma monitor_cons cfg w rest r :
  running r = true →
  monitor cfg ((w, Quiet) :: rest) r
  = match one_call cfg w r with
    | (None, r') => (ShutDown, stop r')
    | (Some _, r') => monitor cfg rest r'
    end.
Proof. intros Hr. cbn [monitor]. by rewrite Hr. Qed.

Lemma raised_leaves_agent cfg w a :
  returned (process_new_files cfg w a) = None → after (process_new_files cfg w a) = a.
Proof. intros Hret. by destruct (process_new_files_cycle cfg w a). Qed.

(** X17.  When the server is not reachable at the first call, [start]
    returns False at once: the loop is never entered, [stop] is not
    called, and the agent is as it was. *)
Theorem start_without_server cfg w turns r :
  ollama_up w = false →
  start cfg (w, Quiet) turns r = (ReturnedFalse, r).
Proof.
  intros Hdown. unfold start, one_call, process_new_files. simpl. rewrite Hdown. simpl.
  by rewrite with_self_same.
Qed.

Lemma start_without_server_witness :
  start demo_cfg (server_down dir_a t0, Quiet) [(serving dir_a t1, Quiet)] idle
  = (ReturnedFalse, idle).
Proof.
  apply (start_without_server demo_cfg (server_down dir_a t0) [(serving dir_a t1, Quiet)] idle).
  reflexivity.
Defined.

Lemma monitor_is_run cfg turns r :
  ∃ n, self (snd (monitor cfg turns r)) = run cfg (map fst (take n turns)) (self r).
Proof.
  revert r. induction turns as [|[w []] turns IH]; intros r.
  - exists 0%nat. simpl. by destruct (running r).
  - destruct (running r) eqn:Hr; [|exists 0%nat; by rewrite monitor_stopped].
    rewrite monitor_cons by done. unfold one_call.
    destruct (returned (process_new_files cfg w (self r))) as [b|].
    + destruct (IH (with_self r (after (process_new_files cfg w (self r))))) as [n Hn].
      exists (S n). by rewrite Hn.
    + by exists 1%nat.
Qed.

(** X18.  As long as no signal arrives, the agent [start] leaves behind is
    the agent after the cycles of the first [n] turns, for some [n]:
    apart from calling [process_new_files], [start] and [stop] change
    nothing in its state. *)
Theorem start_only_runs_cycles cfg first turns r :
  ∃ n, self (snd (start cfg first turns r))
       = run cfg (map fst (take n (first :: turns))) (self r).
Proof.
  destruct first as [w []]. unfold start, one_call.
  destruct (returned (process_new_files cfg w (self r))) as [[|]|].
  - destruct (monitor_is_run cfg turns
                (set_running (with_self r (after (process_new_files cfg w (self r)))) true))
      as [n Hn].
    exists (S n). by rewrite Hn.
  - by exists 1%nat.
  - by exists 1%nat.
Qed.

(** X21.  An exception that leaves [process_new_files] escapes [start]
    when it happens in the first call: [stop] is not called and the agent
    is as it was.  Inside the loop it ends monitoring: no later turn is
    run, the flag is cleared by [stop], and the agent is as it was. *)
Theorem exception_ends_start cfg w rest r :
  returned (process_new_files cfg w (self r)) = None →
  start cfg (w, Quiet) rest r = (Escaped, r)
  ∧ monitor cfg ((w, Quiet) :: rest) (set_running r true)
    = monitor cfg [(w, Quiet)] (set_running r true)
  ∧ self (snd (monitor cfg ((w, Quiet) :: rest) (set_running r true))) = self r
  ∧ running (snd (monitor cfg ((w, Quiet) :: rest) (set_running r true))) = false.
Proof.
  intros Hret. pose proof (raised_leaves_agent cfg w (self r) Hret) as Hsame.
  split.
  { unfold start, one_call. by rewrite Hret, Hsame, with_self_same. }
  rewrite !monitor_cons by done. unfold one_call.
  change (self (set_running r true)) with (self r). by rewrite Hret.
Qed.

Lemma exception_ends_start_witness :
  start demo_cfg (garbled dir_a t0, Quiet) [(serving dir_a t1, Quiet)] idle = (Escaped, idle)
  ∧ monitor demo_cfg ((garbled dir_a t0, Quiet) :: [(serving dir_a t1, Quiet)])
      (set_running idle true)
    = monitor demo_cfg [(garbled dir_a t0, Quiet)] (set_running idle true)
  ∧ self (snd (monitor demo_cfg ((garbled dir_a t0, Quiet) :: [(serving dir_a t1, Quiet)])
                 (set_running idle true))) = self idle
  ∧ running (snd (monitor demo_cfg
                    ((garbled dir_a t0, Quiet) :: [(serving dir_a t1, Quiet)])
                    (set_running idle true))) = false.
Proof.
  apply (exception_ends_start demo_cfg (garbled dir_a t0) [(serving dir_a t1, Quiet)] idle).
  vm_compute. reflexivity.
Defined.

(** X22.  Inside the loop, a cycle that finds the server unreachable
    neither ends monitoring nor changes the agent: the loop goes on to the
    next turn. *)
Theorem unreachable_server_does_not_stop_the_loop cfg w rest r :
  running r = true →
  ollama_up w = false →
  monitor cfg ((w, Quiet) :: rest) r = monitor cfg rest r.
Proof.
  intros Hr Hdown. rewrite monitor_cons by done.
  unfold one_call, process_new_files. rewrite Hdown. simpl. by rewrite with_self_same.
Qed.

Lemma unreachable_server_does_not_stop_the_loop_witness :
  monitor demo_cfg ((server_down dir_a t0, Quiet) :: [(serving dir_a t1, Quiet)])
    (set_running idle true)
  = monitor demo_cfg [(serving dir_a t1, Quiet)] (set_running idle true).
Proof.
  apply (unreachable_server_does_not_stop_the_loop demo_cfg (server_down dir_a t0)
           [(serving dir_a t1, Quiet)] (set_running idle true)).
  - reflexivity.
  - reflexivity.
Defined.
